(** * Git provider operations: commit, diff, merge-base, clone

    A shallow embedding of the CLI provider's orchestrators
    ([executeMergeBase], [executeCommit], [executeClone], [executeDiff])
    and of the diff tool logic ([gitDiffLogic]), together with the
    properties of their control flow.

    JavaScript strings are rendered as [string], i.e. sequences of code
    units below 256; numbers that the code only uses as integers are [Z],
    and [NaN] is kept apart. *)

From Stdlib Require Import String Ascii List ZArith Bool Lia.
From Stdlib Require Import Numbers.DecimalString.
Import ListNotations.
Open Scope string_scope.

(* ===================================================================== *)
(** ** The fragment of the JavaScript runtime the operations rely on *)
(* ===================================================================== *)

Module Js.

(** [WhiteSpace] and [LineTerminator] code units below 256: TAB, LF, VT,
    FF, CR, SP and NBSP. *)
Definition isWhiteSpace (c : ascii) : bool :=
  let n := nat_of_ascii c in
  ((9 <=? n) && (n <=? 13) || (n =? 32) || (n =? 160))%nat.

(** [String.prototype.trimStart]. *)
Fixpoint trimStart (s : string) : string :=
  match s with
  | String c s' => if isWhiteSpace c then trimStart s' else s
  | EmptyString => EmptyString
  end.

(** [String.prototype.trimEnd]. *)
Fixpoint trimEnd (s : string) : string :=
  match s with
  | String c s' =>
      match trimEnd s' with
      | EmptyString => if isWhiteSpace c then EmptyString else String c EmptyString
      | t => String c t
      end
  | EmptyString => EmptyString
  end.

(** [String.prototype.trim]. *)
Definition trim (s : string) : string := trimEnd (trimStart s).

(** Truthiness of a string: every string but the empty one. *)
Definition truthy (s : string) : bool :=
  match s with EmptyString => false | String _ _ => true end.

(** [a || b] on strings where [a] may be [undefined]. *)
Definition or_else (a : option string) (b : string) : string :=
  match a with
  | Some s => if truthy s then s else b
  | None => b
  end.

(** [String.prototype.includes]. *)
Fixpoint includes (s sub : string) : bool :=
  String.prefix sub s
  || match s with
     | String _ s' => includes s' sub
     | EmptyString => false
     end.

(** The scanning loop of [String.prototype.split] for a non-empty
    separator: [skip] counts the code units of a matched separator that
    are still to be stepped over, [cur] is the segment being gathered. *)
Fixpoint split_scan (sep : string) (skip : nat) (cur : string) (s : string)
  : list string :=
  match s with
  | EmptyString => [cur]
  | String c s' =>
      match skip with
      | S k => split_scan sep k cur s'
      | O =>
          if String.prefix sep s
          then cur :: split_scan sep (String.length sep - 1) EmptyString s'
          else split_scan sep 0 (cur ++ String c EmptyString) s'
      end
  end.

(** [String.prototype.split(sep)] with a string separator and no limit.
    With the empty separator the result is the list of code units (and
    the empty list for the empty string). *)
Definition split (s sep : string) : list string :=
  match sep with
  | EmptyString => map (fun c => String c EmptyString) (list_ascii_of_string s)
  | _ => split_scan sep 0 EmptyString s
  end.

(** A JavaScript number as far as the operations use it. *)
Inductive number : Type :=
| NaN
| Num (z : Z).

Definition digit (c : ascii) : option Z :=
  let n := nat_of_ascii c in
  if ((48 <=? n) && (n <=? 57))%nat then Some (Z.of_nat (n - 48)) else None.

(** The longest prefix of decimal digits, read as an integer; [acc] is
    [None] as long as no digit has been seen. *)
Fixpoint digits (acc : option Z) (s : string) : option Z :=
  match s with
  | String c s' =>
      match digit c with
      | Some d =>
          digits (Some (10 * (match acc with Some a => a | None => 0 end) + d)%Z) s'
      | None => acc
      end
  | EmptyString => acc
  end.

(** [parseInt(s, 10)]: leading white space is skipped, one sign is
    accepted, the longest digit prefix is read, and no digit gives
    [NaN]. The integer is exact, as the JavaScript number is below 2^53;
    the sign of zero is not kept. *)
Definition parseInt10 (s : string) : number :=
  let t := trimStart s in
  let '(neg, body) :=
    match t with
    | String "-"%char r => (true, r)
    | String "+"%char r => (false, r)
    | _ => (false, t)
    end in
  match digits None body with
  | Some n => Num (if neg then (- n)%Z else n)
  | None => NaN
  end.

(** [Number.prototype.toString] on an integer, below 10^21 in absolute
    value, where JavaScript prints all the digits. *)
Definition toString (z : Z) : string :=
  NilEmpty.string_of_int (Z.to_int z).

(** Truthiness of an optional boolean option field. *)
Definition truthy_flag (b : option bool) : bool :=
  match b with Some true => true | _ => false end.

(** Truthiness of an optional string field. *)
Definition truthy_opt (s : option string) : bool :=
  match s with Some t => truthy t | None => false end.

(** Truthiness of an optional integer field. *)
Definition truthy_num (n : option Z) : bool :=
  match n with Some z => negb (z =? 0)%Z | None => false end.

End Js.

(* ===================================================================== *)
(** ** [node:path], POSIX flavour *)
(* ===================================================================== *)

Module NodePath.

Definition slash : ascii := "/"%char.

Definition isAbsolute (p : string) : bool :=
  match p with
  | String c _ => Ascii.eqb c slash
  | EmptyString => false
  end.

(** Segment-wise rendering of [normalizeString]: empty segments and [.]
    vanish, [..] removes the segment before it unless there is none or
    it is itself [..]; then [..] is kept only when [allowAboveRoot]. [acc]
    holds the segments kept so far, last one first. *)
Fixpoint normalizeSegments (allowAboveRoot : bool) (acc : list string)
    (segs : list string) : list string :=
  match segs with
  | [] => rev acc
  | seg :: rest =>
      if (seg =? "") || (seg =? ".") then normalizeSegments allowAboveRoot acc rest
      else if seg =? ".." then
        match acc with
        | last :: acc' =>
            if last =? ".."
            then normalizeSegments allowAboveRoot
                   (if allowAboveRoot then ".." :: acc else acc) rest
            else normalizeSegments allowAboveRoot acc' rest
        | [] =>
            normalizeSegments allowAboveRoot
              (if allowAboveRoot then [".."] else []) rest
        end
      else normalizeSegments allowAboveRoot (seg :: acc) rest
  end.

Definition normalizeString (p : string) (allowAboveRoot : bool) : string :=
  String.concat "/" (normalizeSegments allowAboveRoot [] (Js.split p "/")).

(** [path.resolve(p)] with one argument; [cwd] is [process.cwd()]. The
    loop runs over [p] and then, unless [p] was absolute, over [cwd];
    empty entries are skipped. *)
Definition resolve (cwd p : string) : string :=
  let '(resolvedPath, resolvedAbsolute) :=
    let r1 := if Js.truthy p then (p ++ "/", isAbsolute p) else ("", false) in
    if snd r1 then r1
    else if Js.truthy cwd then (cwd ++ "/" ++ fst r1, isAbsolute cwd)
    else r1 in
  let norm := normalizeString resolvedPath (negb resolvedAbsolute) in
  if resolvedAbsolute then "/" ++ norm
  else if Js.truthy norm then norm else ".".

(** Scan of [dirname] and [basename] from the end of the path, on the
    reversed list of code units: drop the trailing slashes, then the
    last component. *)
Fixpoint dropSlashes (r : list ascii) : list ascii :=
  match r with
  | c :: r' => if Ascii.eqb c slash then dropSlashes r' else r
  | [] => []
  end.

Fixpoint takeComponent (r : list ascii) : list ascii :=
  match r with
  | c :: r' => if Ascii.eqb c slash then [] else c :: takeComponent r'
  | [] => []
  end.

Fixpoint dropComponent (r : list ascii) : list ascii :=
  match r with
  | c :: r' => if Ascii.eqb c slash then r else dropComponent r'
  | [] => []
  end.

(** [path.basename(p)]. *)
Definition basename (p : string) : string :=
  string_of_list_ascii
    (rev (takeComponent (dropSlashes (rev (list_ascii_of_string p))))).

(** [path.dirname(p)]: the scan never looks at index 0, and stops at the
    slash that precedes the last component; [end] is the index of that
    slash. *)
Definition dirname (p : string) : string :=
  match p with
  | EmptyString => "."
  | String c0 tl =>
      let hasRoot := Ascii.eqb c0 slash in
      match dropComponent (dropSlashes (rev (list_ascii_of_string tl))) with
      | [] => if hasRoot then "/" else "."
      | _ :: before =>
          (* [before] is [tl] up to, not including, the slash found *)
          match before with
          | [] => if hasRoot then "//" else String c0 EmptyString
          | _ => String c0 (string_of_list_ascii (rev before))
          end
      end
  end.

End NodePath.

(* ===================================================================== *)
(** ** Thrown values *)
(* ===================================================================== *)

(** What a [catch] clause can observe of a thrown value: whether it is an
    [Error] (and then whether it is an [McpError]), whether it is the
    value [null], its [code] property if it has one, and its message. A
    promise can reject with any value, so [null] is among them; of a
    [NullValue] the other two fields are never read. *)
Inductive ErrorClass : Type :=
| PlainError      (* [Error], or a subclass other than [McpError] *)
| McpError        (* [McpError extends Error] *)
| NotAnError      (* a value other than [null] that is not [instanceof Error] *)
| NullValue.      (* the value [null] *)

Inductive CodeValue : Type :=
| CodeNumber (z : Z)
| CodeString (s : string).

Record Thrown : Type := mkThrown {
  thrown_class : ErrorClass;
  thrown_code : option CodeValue;     (* [None]: no [code] property *)
  thrown_message : string
}.

(** [new Error(message)]. *)
Definition newError (message : string) : Thrown :=
  mkThrown PlainError None message.

(** [new McpError(code, message)]. *)
Definition newMcpError (code : Z) (message : string) : Thrown :=
  mkThrown McpError (Some (CodeNumber code)) message.


(** [error === null]. *)
Definition isNull (e : Thrown) : bool :=
  match thrown_class e with
  | NullValue => true
  | _ => false
  end.

(** [error instanceof Error]. *)
Definition instanceofError (e : Thrown) : bool :=
  match thrown_class e with
  | PlainError | McpError => true
  | NotAnError | NullValue => false
  end.

(** ['code' in error && error.code === n]. *)
Definition codeIs (e : Thrown) (n : Z) : bool :=
  match thrown_code e with
  | Some (CodeNumber z) => (z =? n)%Z
  | _ => false
  end.

(* ===================================================================== *)
(** ** Computations that call the external tool and may throw *)
(* ===================================================================== *)

Inductive Outcome (A : Type) : Type :=
| Returned (a : A)
| Threw (e : Thrown).
Arguments Returned {A} a.
Arguments Threw {A} e.

Record GitOutput : Type := mkGitOutput {
  stdout : string;
  stderr : string
}.

(** The argument of [buildGitCommand]. *)
Record GitCommand : Type := mkGitCommand {
  command : string;
  args : list string
}.

(** One subprocess invocation as the log remembers it: the command it was
    built from, the argument vector and working directory handed to
    [execGit], and whether [execGit] resolved. *)
Record ExecCall : Type := mkExecCall {
  call_spec : GitCommand;
  call_argv : list string;
  call_cwd : string;
  call_ok : bool
}.

Definition LF : string := String (ascii_of_nat 10) EmptyString.

Definition list_eqb (l1 l2 : list string) : bool :=
  if list_eq_dec string_dec l1 l2 then true else false.

Definition command_eqb (c1 c2 : GitCommand) : bool :=
  (command c1 =? command c2) && list_eqb (args c1) (args c2).

Section Machine.

(** The state of everything outside the process (file system,
    repository, remote), as far as it decides what [execGit] does. *)
Variable World : Type.

Record State : Type := mkState {
  world : World;
  log : list ExecCall
}.

(** An [async] function body: it runs from a state to an outcome and a
    state; what happened before a [throw] stays in the state. *)
Definition M (A : Type) : Type := State -> Outcome A * State.

Definition ret {A} (a : A) : M A := fun st => (Returned a, st).

Definition throw {A} (e : Thrown) : M A := fun st => (Threw e, st).

Definition bind {A B} (m : M A) (k : A -> M B) : M B :=
  fun st =>
    match m st with
    | (Returned a, st') => k a st'
    | (Threw e, st') => (Threw e, st')
    end.

(** [try { m } catch (error) { handler error }]. *)
Definition try_catch {A} (m : M A) (handler : Thrown -> M A) : M A :=
  fun st =>
    match m st with
    | (Returned a, st') => (Returned a, st')
    | (Threw e, st') => handler e st'
    end.

End Machine.

Arguments ret {World A} a.
Arguments throw {World A} e.
Arguments bind {World A B} m k.
Arguments try_catch {World A} m handler.
Arguments mkState {World} world log.
Arguments world {World} s.
Arguments log {World} s.

Declare Scope git_scope.
Delimit Scope git_scope with git.
Notation "x <- m ;; k" := (bind m (fun x => k))
  (at level 61, m at next level, right associativity) : git_scope.
Notation "'attempt' m 'rescue' e '=>' h" := (try_catch m (fun e => h))
  (at level 61, m at next level, e name, right associativity) : git_scope.
Open Scope git_scope.

(* ===================================================================== *)
(** ** Options and results of the four operations *)
(* ===================================================================== *)

Inductive MergeBaseMode : Type :=
| ModeDefault
| ModeAll
| ModeIsAncestor.

Definition isAncestorMode (m : MergeBaseMode) : bool :=
  match m with ModeIsAncestor => true | _ => false end.

Definition isAllMode (m : MergeBaseMode) : bool :=
  match m with ModeAll => true | _ => false end.

Record GitMergeBaseOptions : Type := mkMergeBaseOptions {
  mb_refs : list string;
  mb_mode : option MergeBaseMode
}.

(** [mergeBase: string | string[] | null]. *)
Inductive MergeBaseValue : Type :=
| MbNull
| MbHash (h : string)
| MbHashes (hs : list string).

Record GitMergeBaseResult : Type := mkMergeBaseResult {
  mbr_success : bool;
  mbr_mergeBase : MergeBaseValue;
  mbr_isAncestor : option bool;       (* [None]: the property is absent *)
  mbr_refs : list string;
  mbr_mode : MergeBaseMode
}.

Record Author : Type := mkAuthor {
  author_name : string;
  author_email : string
}.

Record GitCommitOptions : Type := mkCommitOptions {
  co_message : string;
  co_amend : option bool;
  co_allowEmpty : option bool;
  co_noVerify : option bool;
  co_author : option Author;
  co_sign : option bool;
  co_forceUnsignedOnFailure : option bool
}.

Record GitCommitResult : Type := mkCommitResult {
  cr_success : bool;
  cr_commitHash : string;
  cr_message : string;
  cr_author : string;
  cr_timestamp : Js.number;
  cr_filesChanged : list string
}.

Record GitCloneOptions : Type := mkCloneOptions {
  cl_remoteUrl : string;
  cl_localPath : string;
  cl_branch : option string;
  cl_depth : option Z;
  cl_bare : option bool;
  cl_mirror : option bool;
  cl_recurseSubmodules : option bool
}.

Record GitCloneResult : Type := mkCloneResult {
  clr_success : bool;
  clr_localPath : string;
  clr_remoteUrl : string;
  clr_branch : string
}.

Record GitDiffOptions : Type := mkDiffOptions {
  d_source : option string;
  d_target : option string;
  d_path : option string;
  d_staged : option bool;
  d_includeUntracked : option bool;
  d_stat : option bool;
  d_nameOnly : option bool;
  d_unified : option Z
}.

(** What [parseGitDiffStat] returns. *)
Record DiffStat : Type := mkDiffStat {
  files : list string;
  totalAdditions : Z;
  totalDeletions : Z
}.

Record GitDiffResult : Type := mkDiffResult {
  dr_diff : string;
  dr_filesChanged : Z;
  dr_insertions : Z;
  dr_deletions : Z;
  dr_binary : bool
}.

(** Input and output of the [git_diff] tool, after schema defaults. *)
Record DiffToolInput : Type := mkDiffToolInput {
  in_path : string;
  in_target : option string;
  in_source : option string;
  in_paths : option (list string);
  in_staged : bool;
  in_includeUntracked : bool;
  in_nameOnly : bool;
  in_stat : bool;
  in_contextLines : Z
}.

Record DiffToolOutput : Type := mkDiffToolOutput {
  out_success : bool;
  out_diff : string;
  out_filesChanged : Z;
  out_insertions : Z;
  out_deletions : Z
}.

(** Input and output of the [git_merge_base] tool, after schema defaults. *)
Record MergeBaseToolInput : Type := mkMergeBaseToolInput {
  mbin_path : string;
  mbin_refs : list string;
  mbin_mode : MergeBaseMode
}.

Record MergeBaseToolOutput : Type := mkMergeBaseToolOutput {
  mbout_success : bool;
  mbout_mergeBase : MergeBaseValue;
  mbout_isAncestor : option bool;
  mbout_refs : list string;
  mbout_mode : MergeBaseMode
}.

(** The verbosity levels of the response formatter. *)
Inductive VerbosityLevel : Type :=
| Minimal
| Standard
| Full.

(** [Partial<ToolOutput>] of the two tools: a field is [None] when the
    filtered object does not carry it. *)
Record PartialDiffToolOutput : Type := mkPartialDiffToolOutput {
  pd_success : option bool;
  pd_diff : option string;
  pd_filesChanged : option Z;
  pd_insertions : option Z;
  pd_deletions : option Z
}.

Record PartialMergeBaseToolOutput : Type := mkPartialMergeBaseToolOutput {
  pmb_success : option bool;
  pmb_mergeBase : option MergeBaseValue;
  pmb_isAncestor : option bool;
  pmb_refs : option (list string);
  pmb_mode : option MergeBaseMode
}.

(** The operation context; the request context in it is opaque to the
    operations. *)
Record GitOperationContext (RequestContext : Type) : Type := mkContext {
  workingDirectory : string;
  requestContext : RequestContext;
  tenantId : string
}.
Arguments mkContext {RequestContext} workingDirectory requestContext tenantId.
Arguments workingDirectory {RequestContext} g.
Arguments requestContext {RequestContext} g.
Arguments tenantId {RequestContext} g.

(* ===================================================================== *)
(** ** A scripted environment for concrete runs *)
(* ===================================================================== *)

(** The world is the list of answers the external tool will still give;
    each call consumes one. The helpers are the plainest ones that fit
    their use in the operations. *)
Module Sample.

Definition World : Type := list (Outcome GitOutput).

Definition execGit (argv : list string) (cwd : string) (ctx : unit) (w : World)
  : Outcome GitOutput * World :=
  match w with
  | r :: rest => (r, rest)
  | [] => (Threw (newError "no answer left"), [])
  end.

Definition buildGitCommand (c : GitCommand) : list string :=
  command c :: args c.

(** An [McpError] passes through; anything else is wrapped. *)
Definition mapGitError (e : Thrown) (operation : string) : Thrown :=
  match thrown_class e with
  | McpError => e
  | _ => newMcpError (-32603) ("Git " ++ operation ++ " failed: " ++ thrown_message e)
  end.

Definition parseGitDiffStat (out : string) : DiffStat := mkDiffStat [] 0 0.

Definition tenantIdOf (ctx : unit) : option string := None.

Definition InvalidParams : Z := (-32602)%Z.

(** The unit and record separators of ASCII. *)
Definition GIT_FIELD_DELIMITER : string := String (ascii_of_nat 31) EmptyString.
Definition GIT_RECORD_DELIMITER : string := String (ascii_of_nat 30) EmptyString.

(** The tool exits 0 with [out] on its standard output. *)
Definition exits0 (out : string) : Outcome GitOutput :=
  Returned (mkGitOutput out "").

(** The tool exits with status [n]; [execGit] rejects with an [Error]
    whose [code] is [n]. *)
Definition exits (n : Z) (err : string) : Outcome GitOutput :=
  Threw (mkThrown PlainError (Some (CodeNumber n)) err).

Definition context : GitOperationContext unit :=
  mkContext "/repo" tt "default-tenant".

(** A commit with [sign] and [forceUnsignedOnFailure] as given. *)
Definition commitOptions (sign force : option bool) : GitCommitOptions :=
  mkCommitOptions "fix: typo" None None None None sign force.

Definition cloneOptions (localPath : string) (branch : option string)
  : GitCloneOptions :=
  mkCloneOptions "https://example.org/r.git" localPath branch None None None None.

Definition diffInput (paths : option (list string)) : DiffToolInput :=
  mkDiffToolInput "." None None paths false false false false 3.

(** What [show] prints for a commit by Alice that touched two files. *)
Definition payload : string :=
  ("Alice" ++ GIT_FIELD_DELIMITER ++ "1700000000"
   ++ GIT_RECORD_DELIMITER ++ LF ++ "a.txt" ++ LF ++ "b.txt" ++ LF)%string.

End Sample.

Section Provider.

(** The state outside the process, and the opaque request context. *)
Variable World : Type.
Variable RequestContext : Type.

(** The process executor the operations are given: argument vector,
    working directory and request context in; it resolves with the
    captured output or rejects, and changes the world. *)
Variable execGit :
  list string -> string -> RequestContext -> World -> Outcome GitOutput * World.

(** Helpers and constants of the provider's [utils] module. *)
Variable buildGitCommand : GitCommand -> list string.
Variable mapGitError : Thrown -> string -> Thrown.
Variable parseGitDiffStat : string -> DiffStat.
Variable shouldSignCommits : bool.
Variable GIT_FIELD_DELIMITER : string.
Variable GIT_RECORD_DELIMITER : string.

(** [JsonRpcErrorCode.InvalidParams]. *)
Variable InvalidParams : Z.

(** [process.cwd()], read by [path.resolve]. *)
Variable processCwd : string.

(** [await execGit(buildGitCommand(c), cwd, ctx)], with the call entered
    in the log. *)
Definition git (c : GitCommand) (cwd : string) (ctx : RequestContext)
  : M World GitOutput :=
  fun st =>
    let argv := buildGitCommand c in
    let '(r, w) := execGit argv cwd ctx (world st) in
    let ok := match r with Returned _ => true | Threw _ => false end in
    (r, mkState w (log st ++ [mkExecCall c argv cwd ok])).

(* ------------------------------------------------------------------- *)
(** *** merge-base *)

Definition modeFlags (mode : MergeBaseMode) : list string :=
  match mode with
  | ModeAll => ["--all"]
  | ModeIsAncestor => ["--is-ancestor"]
  | ModeDefault => []
  end.

Definition mergeBaseCommand (mode : MergeBaseMode) (refs : list string)
  : GitCommand :=
  mkGitCommand "merge-base" (modeFlags mode ++ refs).

(** [hashes[0] || null]. *)
Definition firstHash (hashes : list string) : MergeBaseValue :=
  match hashes with
  | h :: _ => if Js.truthy h then MbHash h else MbNull
  | [] => MbNull
  end.

Definition executeMergeBase (options : GitMergeBaseOptions)
    (context : GitOperationContext RequestContext) : M World GitMergeBaseResult :=
  attempt
    (let mode := match mb_mode options with Some m => m | None => ModeDefault end in
     let refs := mb_refs options in
     if isAncestorMode mode && negb (List.length refs =? 2)%nat then
       throw (newMcpError InvalidParams "is-ancestor mode requires exactly 2 refs")
     else if (List.length refs <? 1)%nat then
       throw (newMcpError InvalidParams "At least 1 ref required for merge-base")
     else
       let cmd := mergeBaseCommand mode refs in
       attempt
         (gitOutput <- git cmd (workingDirectory context) (requestContext context) ;;
          if isAncestorMode mode then
            ret (mkMergeBaseResult true MbNull (Some true) refs mode)
          else
            let output := Js.trim (stdout gitOutput) in
            if negb (Js.truthy output) then
              ret (mkMergeBaseResult true MbNull None refs mode)
            else
              let hashes :=
                filter (fun line => (0 <? String.length line)%nat)
                       (map Js.trim (Js.split output LF)) in
              if isAllMode mode then
                ret (mkMergeBaseResult true (MbHashes hashes) None refs mode)
              else
                ret (mkMergeBaseResult true (firstHash hashes) None refs mode))
       rescue error =>
         (if isAncestorMode mode && instanceofError error && codeIs error 1 then
            ret (mkMergeBaseResult true MbNull (Some false) refs mode)
          else throw error))
  rescue error => throw (mapGitError error "merge-base").

(* ------------------------------------------------------------------- *)
(** *** commit *)

(** The arguments shared by the signed and the unsigned attempt. *)
Definition commitArgs (options : GitCommitOptions) : list string :=
  ["-m"; co_message options]
  ++ (if Js.truthy_flag (co_amend options) then ["--amend"] else [])
  ++ (if Js.truthy_flag (co_allowEmpty options) then ["--allow-empty"] else [])
  ++ (if Js.truthy_flag (co_noVerify options) then ["--no-verify"] else [])
  ++ (match co_author options with
      | Some a => ["--author=" ++ author_name a ++ " <" ++ author_email a ++ ">"]
      | None => []
      end).

Definition signedCommand (options : GitCommitOptions) : GitCommand :=
  mkGitCommand "commit" (commitArgs options ++ ["--gpg-sign"]).

Definition unsignedCommand (options : GitCommitOptions) : GitCommand :=
  mkGitCommand "commit" (commitArgs options ++ ["--no-gpg-sign"]).

Definition hashCommand : GitCommand := mkGitCommand "rev-parse" ["HEAD"].

Definition showCommand (commitHash : string) : GitCommand :=
  mkGitCommand "show"
    ["--format=%an" ++ GIT_FIELD_DELIMITER ++ "%at" ++ GIT_RECORD_DELIMITER;
     "--name-only"; commitHash].

(** [options.sign ?? shouldSignCommits()]. *)
Definition shouldSign (options : GitCommitOptions) : bool :=
  match co_sign options with
  | Some b => b
  | None => shouldSignCommits
  end.

(** The decoding of the [show] output at the end of [executeCommit]:
    author name, author timestamp and changed files. *)
Definition metaParts (payload : string) : list string :=
  match nth_error (Js.split payload GIT_RECORD_DELIMITER) 0 with
  | Some p => Js.split p GIT_FIELD_DELIMITER
  | None => []
  end.

Definition authorName (payload : string) : string :=
  Js.or_else (nth_error (metaParts payload) 0) "".

Definition timestamp (payload : string) : Js.number :=
  Js.parseInt10 (Js.or_else (nth_error (metaParts payload) 1) "0").

Definition filesChanged (payload : string) : list string :=
  match nth_error (Js.split payload GIT_RECORD_DELIMITER) 1 with
  | Some p => filter (fun f => Js.truthy (Js.trim f)) (Js.split p LF)
  | None => []
  end.

Definition commitResult (options : GitCommitOptions) (commitHash payload : string)
  : GitCommitResult :=
  mkCommitResult true commitHash (co_message options)
    (authorName payload) (timestamp payload) (filesChanged payload).

(** [commitError] starts as [null] and takes the value caught from the
    signed attempt; [None] is [null], so a caught [null] leaves it [None],
    and [commitError !== null] is the test for [Some]. The comment ahead of
    that test reads: if we haven't committed yet (either no signing or
    signing failed with forceUnsignedOnFailure). *)
Definition executeCommit (options : GitCommitOptions)
    (context : GitOperationContext RequestContext) : M World GitCommitResult :=
  let cwd := workingDirectory context in
  let ctx := requestContext context in
  attempt
    (commitError <-
       (if shouldSign options then
          attempt
            (_ <- git (signedCommand options) cwd ctx ;; ret None)
          rescue error =>
            (if Js.truthy_flag (co_forceUnsignedOnFailure options)
             then ret (if isNull error then None else Some error)
             else throw error)
        else ret None) ;;
     _ <-
       (if (match commitError with Some _ => true | None => false end)
           || negb (shouldSign options)
        then _ <- git (unsignedCommand options) cwd ctx ;; ret tt
        else ret tt) ;;
     hashResult <- git hashCommand cwd ctx ;;
     let commitHash := Js.trim (stdout hashResult) in
     showResult <- git (showCommand commitHash) cwd ctx ;;
     ret (commitResult options commitHash (stdout showResult)))
  rescue error => throw (mapGitError error "commit").

(* ------------------------------------------------------------------- *)
(** *** clone *)

Definition cloneArgs (options : GitCloneOptions) (targetDirName : string)
  : list string :=
  [cl_remoteUrl options; targetDirName]
  ++ (match cl_branch options with
      | Some b => if Js.truthy b then ["--branch"; b] else []
      | None => []
      end)
  ++ (match cl_depth options with
      | Some d => if negb (d =? 0)%Z then ["--depth"; Js.toString d] else []
      | None => []
      end)
  ++ (if Js.truthy_flag (cl_bare options) then ["--bare"] else [])
  ++ (if Js.truthy_flag (cl_mirror options) then ["--mirror"] else [])
  ++ (if Js.truthy_flag (cl_recurseSubmodules options)
      then ["--recurse-submodules"] else []).

Definition executeClone (options : GitCloneOptions)
    (context : GitOperationContext RequestContext) : M World GitCloneResult :=
  attempt
    (let absoluteLocalPath := NodePath.resolve processCwd (cl_localPath options) in
     let parentDir := NodePath.dirname absoluteLocalPath in
     let targetDirName := NodePath.basename absoluteLocalPath in
     let cmd := mkGitCommand "clone" (cloneArgs options targetDirName) in
     _ <- git cmd parentDir (requestContext context) ;;
     ret (mkCloneResult true absoluteLocalPath (cl_remoteUrl options)
            (Js.or_else (cl_branch options) "main")))
  rescue error => throw (mapGitError error "clone").

(* ------------------------------------------------------------------- *)
(** *** diff *)

Definition diffArgs (options : GitDiffOptions) : list string :=
  (if Js.truthy_flag (d_staged options) then ["--cached"] else [])
  ++ (if Js.truthy_flag (d_nameOnly options) then ["--name-only"] else [])
  ++ (match d_source options with
      | Some s => if Js.truthy s then [s] else []
      | None => []
      end)
  ++ (match d_target options with
      | Some t => if Js.truthy t then [t] else []
      | None => []
      end)
  ++ (match d_path options with
      | Some p => if Js.truthy p then ["--"; p] else []
      | None => []
      end)
  ++ (match d_unified options with
      | Some u =>
          if negb (u =? 0)%Z && negb (Js.truthy_flag (d_nameOnly options))
          then ["--unified=" ++ Js.toString u] else []
      | None => []
      end).

Definition diffCommand (options : GitDiffOptions) : GitCommand :=
  mkGitCommand "diff" (diffArgs options).

Definition statCommand (options : GitDiffOptions) : GitCommand :=
  mkGitCommand "diff"
    (filter (fun a => negb (a =? "--name-only")) (diffArgs options) ++ ["--stat"]).

Definition executeDiff (options : GitDiffOptions)
    (context : GitOperationContext RequestContext) : M World GitDiffResult :=
  let cwd := workingDirectory context in
  let ctx := requestContext context in
  attempt
    (diffResult <- git (diffCommand options) cwd ctx ;;
     statResult <- git (statCommand options) cwd ctx ;;
     let stats := parseGitDiffStat (stdout statResult) in
     let hasBinary := Js.includes (stdout diffResult) "Binary files" in
     ret (mkDiffResult (stdout diffResult)
            (Z.of_nat (List.length (files stats)))
            (totalAdditions stats) (totalDeletions stats) hasBinary))
  rescue error => throw (mapGitError error "diff").

(* ------------------------------------------------------------------- *)
(** *** the provider interface and the diff tool *)

(** The operations a provider offers to the tool layer. *)
Class GitProvider : Type := {
  provider_diff : GitDiffOptions -> GitOperationContext RequestContext -> M World GitDiffResult;
  provider_mergeBase :
    GitMergeBaseOptions -> GitOperationContext RequestContext -> M World GitMergeBaseResult;
  provider_commit : GitCommitOptions -> GitOperationContext RequestContext -> M World GitCommitResult;
  provider_clone : GitCloneOptions -> GitOperationContext RequestContext -> M World GitCloneResult
}.

(** The CLI provider. *)
Definition cliProvider : GitProvider := {|
  provider_diff := executeDiff;
  provider_mergeBase := executeMergeBase;
  provider_commit := executeCommit;
  provider_clone := executeClone
|}.

(** [appContext.tenantId]. *)
Variable tenantIdOf : RequestContext -> option string.

Definition multiPathMessage : string :=
  "Multiple paths not yet supported - please specify a single path".

Definition gitDiffLogic (provider : GitProvider) (input : DiffToolInput)
    (targetPath : string) (appContext : RequestContext) : M World DiffToolOutput :=
  let diffOptions (path : option string) :=
    mkDiffOptions (in_source input) (in_target input) path
      (Some (in_staged input)) (Some (in_includeUntracked input))
      (Some (in_stat input)) (Some (in_nameOnly input))
      (Some (in_contextLines input)) in
  pathChoice <-
    (match in_paths input with
     | Some (p :: more) =>
         match more with
         | _ :: _ => throw (newError multiPathMessage)
         | [] => ret (Some p)
         end
     | _ => ret None
     end) ;;
  result <- provider_diff (diffOptions pathChoice)
              (mkContext targetPath appContext
                 (Js.or_else (tenantIdOf appContext) "default-tenant")) ;;
  ret (mkDiffToolOutput true (dr_diff result)
         (dr_filesChanged result)
         (dr_insertions result) (dr_deletions result)).

(** [filterGitDiffOutput]. *)
Definition filterGitDiffOutput (result : DiffToolOutput) (level : VerbosityLevel)
  : PartialDiffToolOutput :=
  match level with
  | Minimal =>
      mkPartialDiffToolOutput (Some (out_success result)) None
        (Some (out_filesChanged result)) (Some (out_insertions result))
        (Some (out_deletions result))
  | _ =>
      mkPartialDiffToolOutput (Some (out_success result)) (Some (out_diff result))
        (Some (out_filesChanged result)) (Some (out_insertions result))
        (Some (out_deletions result))
  end.

(** [gitMergeBaseLogic]: the mode goes into the options only when it is
    not ['default']. *)
Definition gitMergeBaseLogic (provider : GitProvider) (input : MergeBaseToolInput)
    (targetPath : string) (appContext : RequestContext)
  : M World MergeBaseToolOutput :=
  let mergeBaseOptions :=
    mkMergeBaseOptions (mbin_refs input)
      (match mbin_mode input with
       | ModeDefault => None
       | m => Some m
       end) in
  result <- provider_mergeBase mergeBaseOptions
              (mkContext targetPath appContext
                 (Js.or_else (tenantIdOf appContext) "default-tenant")) ;;
  ret (mkMergeBaseToolOutput (mbr_success result) (mbr_mergeBase result)
         (mbr_isAncestor result) (mbr_refs result) (mbr_mode result)).

(** [filterGitMergeBaseOutput]. *)
Definition filterGitMergeBaseOutput (result : MergeBaseToolOutput)
    (level : VerbosityLevel) : PartialMergeBaseToolOutput :=
  match level with
  | Minimal =>
      mkPartialMergeBaseToolOutput (Some (mbout_success result)) None
        (mbout_isAncestor result) None None
  | _ =>
      mkPartialMergeBaseToolOutput (Some (mbout_success result))
        (Some (mbout_mergeBase result)) (mbout_isAncestor result)
        (Some (mbout_refs result)) (Some (mbout_mode result))
  end.


(* ------------------------------------------------------------------- *)
(** *** vocabulary of the properties *)

(** A validation-kind error: an [McpError] whose code is
    [InvalidParams]. *)
Definition isValidationError (e : Thrown) : Prop :=
  thrown_class e = McpError /\ thrown_code e = Some (CodeNumber InvalidParams).

(** A fresh call: the world as it is, and an empty log. *)
Definition fresh (w : World) : State World := mkState w [].

(** A write attempt is an invocation of the [commit] command. *)
Definition isWriteAttempt (c : ExecCall) : bool :=
  command (call_spec c) =? "commit".

Definition succeededWrites (l : list ExecCall) : list ExecCall :=
  filter (fun c => isWriteAttempt c && call_ok c) l.

(** The log entry of an invocation of [c] in [cwd]. *)
Definition entry (c : GitCommand) (cwd : string) (ok : bool) : ExecCall :=
  mkExecCall c (buildGitCommand c) cwd ok.

(** How [execGit] reports that the tool exited with status [n]: it
    rejects with an [Error] whose [code] property is the number [n]. This
    is the shape that the [catch] clause of [executeMergeBase] tests. *)
Definition exitsWith (e : Thrown) (n : Z) : Prop :=
  (thrown_class e = PlainError \/ thrown_class e = McpError)
  /\ thrown_code e = Some (CodeNumber n).

(** The mapper leaves an already classified [McpError] as it is. *)
Definition passesMcpErrors : Prop :=
  forall e operation, thrown_class e = McpError -> mapGitError e operation = e.

(** The fallback rule with nothing said about the read-back: once the
    signed attempt has failed under [forceUnsignedOnFailure], the second
    invocation is the unsigned commit, and its success alone makes the call
    report success. *)
Definition fallbackSucceedsOnUnsignedAlone (options : GitCommitOptions)
    (context : GitOperationContext RequestContext) (w : World) : Prop :=
  let cwd := workingDirectory context in
  let ctx := requestContext context in
  shouldSign options = true ->
  co_forceUnsignedOnFailure options = Some true ->
  forall e w1,
    execGit (buildGitCommand (signedCommand options)) cwd ctx w = (Threw e, w1) ->
    (exists ok, nth_error (log (snd (executeCommit options context (fresh w)))) 1
                = Some (entry (unsignedCommand options) cwd ok))
    /\ (forall out w2,
          execGit (buildGitCommand (unsignedCommand options)) cwd ctx w1
          = (Returned out, w2) ->
          exists r, fst (executeCommit options context (fresh w)) = Returned r
                    /\ cr_success r = true).

(** The branch rule read literally: absent gives ["main"], present is
    echoed whatever it is. *)
Definition branchEchoedWheneverPresent (options : GitCloneOptions)
    (context : GitOperationContext RequestContext) (w : World) : Prop :=
  forall r,
    fst (executeClone options context (fresh w)) = Returned r ->
    match cl_branch options with
    | None => clr_branch r = "main"
    | Some b => clr_branch r = b
    end.

(** The multi-path rule with the error kind it names: the tool logic
    fails with a validation-kind error and leaves the state alone. *)
Definition multiPathFailsWithValidationError (provider : GitProvider)
    (input : DiffToolInput) (targetPath : string) (appContext : RequestContext)
    (st : State World) : Prop :=
  forall paths,
    in_paths input = Some paths ->
    (2 <= List.length paths)%nat ->
    exists e,
      gitDiffLogic provider input targetPath appContext st = (Threw e, st)
      /\ isValidationError e.

(** [options.mode || 'default']. *)
Definition effectiveMode (options : GitMergeBaseOptions) : MergeBaseMode :=
  match mb_mode options with
  | Some m => m
  | None => ModeDefault
  end.

(** The non-empty trimmed lines of a text, as [executeMergeBase] reads
    the tool's output. *)
Definition hashLines (output : string) : list string :=
  filter (fun line => (0 <? String.length line)%nat)
         (map Js.trim (Js.split output LF)).

(** [String.prototype.indexOf]: where the first occurrence starts. *)
Fixpoint indexOf (s sub : string) : option nat :=
  if String.prefix sub s then Some 0%nat
  else match s with
       | String _ s' => option_map S (indexOf s' sub)
       | EmptyString => None
       end.

(** What [git show] prints for the format of [showCommand] and
    [--name-only]: author name, field delimiter, author time, record
    delimiter, and then the rest. *)
Definition showPayload (author time rest : string) : string :=
  (author ++ GIT_FIELD_DELIMITER ++ time ++ GIT_RECORD_DELIMITER ++ rest)%string.

(** A clone request with every option that the code tests for truthiness
    and finds false (an empty branch, depth 0, a flag that is [false])
    left out. *)
Definition withoutFalsy (options : GitCloneOptions) : GitCloneOptions :=
  let flag (b : option bool) := if Js.truthy_flag b then Some true else None in
  mkCloneOptions (cl_remoteUrl options) (cl_localPath options)
    (if Js.truthy_opt (cl_branch options) then cl_branch options else None)
    (if Js.truthy_num (cl_depth options) then cl_depth options else None)
    (flag (cl_bare options)) (flag (cl_mirror options))
    (flag (cl_recurseSubmodules options)).

(** The options that [gitDiffLogic] hands to the provider. *)
Definition diffOptionsOf (input : DiffToolInput) (path : option string)
  : GitDiffOptions :=
  mkDiffOptions (in_source input) (in_target input) path
    (Some (in_staged input)) (Some (in_includeUntracked input))
    (Some (in_stat input)) (Some (in_nameOnly input))
    (Some (in_contextLines input)).

(** The context that the tools hand to the provider. *)
Definition toolContext (targetPath : string) (appContext : RequestContext)
  : GitOperationContext RequestContext :=
  mkContext targetPath appContext
    (Js.or_else (tenantIdOf appContext) "default-tenant").

(** A diff request without its [unified] option. *)
Definition withoutUnified (options : GitDiffOptions) : GitDiffOptions :=
  mkDiffOptions (d_source options) (d_target options) (d_path options)
    (d_staged options) (d_includeUntracked options) (d_stat options)
    (d_nameOnly options) None.

(* ------------------------------------------------------------------- *)
(** *** merge-base: properties *)

Ltac run_git H :=
  unfold git; cbn [world log]; rewrite H; cbn.

(** C7. The ref-count preconditions of [executeMergeBase] (at least one
    ref; exactly two under [is-ancestor]) are checked before any command
    is built: on a violation the call throws what the mapper makes of an
    [McpError] with code [InvalidParams], the state (world and log) is
    untouched, so no subprocess ran; a mapper that passes [McpError]s
    through hands the caller that validation error itself. *)
Theorem mergeBase_validates_before_running :
  forall (options : GitMergeBaseOptions) (context : GitOperationContext RequestContext)
         (st : State World),
    (List.length (mb_refs options) < 1)%nat
    \/ (mb_mode options = Some ModeIsAncestor
        /\ List.length (mb_refs options) <> 2%nat) ->
    exists message,
      executeMergeBase options context st
      = (Threw (mapGitError (newMcpError InvalidParams message) "merge-base"), st)
      /\ isValidationError (newMcpError InvalidParams message)
      /\ (passesMcpErrors ->
          executeMergeBase options context st
          = (Threw (newMcpError InvalidParams message), st)).
Proof.
  intros options context st Hbad.
  unfold executeMergeBase, try_catch.
  destruct (isAncestorMode
              (match mb_mode options with Some m => m | None => ModeDefault end)
            && negb (List.length (mb_refs options) =? 2)%nat) eqn:Hfirst.
  - eexists; cbn; repeat split.
    intros Hpass; now rewrite Hpass.
  - destruct (List.length (mb_refs options) <? 1)%nat eqn:Hsecond.
    + eexists; cbn; repeat split.
      intros Hpass; now rewrite Hpass.
    + exfalso. destruct Hbad as [Hnone | [Hmode Hlen]].
      * apply Nat.ltb_ge in Hsecond. lia.
      * rewrite Hmode in Hfirst. cbn in Hfirst.
        apply negb_false_iff, Nat.eqb_eq in Hfirst. contradiction.
Qed.

(** C1. Under [is-ancestor] with two refs, when [execGit] rejects, the
    outcome is decided by the rejection alone. If it reports exit status
    1, an [Error] whose [code] is the number 1, the call returns
    [{success: true, mergeBase: null, isAncestor: false}] and nothing is
    thrown. If it reports any other exit status, or is of any other shape
    (no [code], a [code] that is not a number, a value that is not an
    [Error]), it is thrown on as the mapper's image of it. *)
Theorem mergeBase_not_ancestor_is_success :
  forall (a b : string) (context : GitOperationContext RequestContext)
         (st : State World) (e : Thrown) (w' : World),
    execGit (buildGitCommand (mergeBaseCommand ModeIsAncestor [a; b]))
            (workingDirectory context) (requestContext context) (world st)
    = (Threw e, w') ->
    let run :=
      executeMergeBase (mkMergeBaseOptions [a; b] (Some ModeIsAncestor)) context st in
    let st' :=
      mkState w'
        (log st ++ [entry (mergeBaseCommand ModeIsAncestor [a; b])
                          (workingDirectory context) false]) in
    (exitsWith e 1 ->
     run = (Returned (mkMergeBaseResult true MbNull (Some false) [a; b] ModeIsAncestor),
            st'))
    /\ (forall n, n <> 1%Z -> exitsWith e n ->
                  run = (Threw (mapGitError e "merge-base"), st'))
    /\ (thrown_code e = None
        \/ (exists s, thrown_code e = Some (CodeString s))
        \/ thrown_class e = NotAnError
        \/ thrown_class e = NullValue ->
        run = (Threw (mapGitError e "merge-base"), st')).
Proof.
  intros a b context st e w' Hexec run st'. subst run st'.
  unfold executeMergeBase, try_catch, bind. cbn [mb_mode mb_refs isAncestorMode].
  cbn [List.length Nat.eqb negb andb Nat.ltb Nat.leb].
  run_git Hexec. unfold instanceofError, codeIs, exitsWith.
  split; [| split].
  - intros [[-> | ->] ->]; reflexivity.
  - intros n Hn [_ ->]. apply Z.eqb_neq in Hn. rewrite Hn, andb_false_r.
    reflexivity.
  - intros [-> | [[s ->] | [-> | ->]]]; try rewrite andb_false_r; reflexivity.
Qed.

(* ------------------------------------------------------------------- *)
(** *** commit: properties *)

Lemma signed_is_not_unsigned :
  forall options, signedCommand options <> unsignedCommand options.
Proof.
  intros options H. unfold signedCommand, unsignedCommand in H.
  injection H as H. apply app_inv_head in H. discriminate.
Qed.

Lemma readback_is_not_a_commit :
  forall options hash,
    hashCommand <> unsignedCommand options
    /\ showCommand hash <> unsignedCommand options
    /\ hashCommand <> signedCommand options
    /\ showCommand hash <> signedCommand options.
Proof.
  intros; repeat split; intros H; apply (f_equal command) in H; discriminate.
Qed.

(** Case analysis on every answer of the external tool met in the goal. *)
Ltac each_answer :=
  repeat match goal with
         | |- context [execGit ?argv ?cwd ?ctx ?w] =>
             let out := fresh "out" in
             let err := fresh "err" in
             let w' := fresh "w" in
             let H := fresh "Hexec" in
             destruct (execGit argv cwd ctx w) as [[out | err] w'] eqn:H; cbn
         end.

(** Splits the membership facts about an explicit log into its entries. *)
Ltac split_log :=
  cbn [In log snd fst] in *;
  repeat match goal with
         | H : _ \/ _ |- _ => destruct H as [H | H]
         | H : False |- _ => destruct H
         end.

(** Refutes an equation between two log entries that differ in their
    command or in their success flag. *)
Ltac refute_entry options :=
  match goal with
  | H : _ = entry _ _ _ |- _ =>
      first [ apply (f_equal call_ok) in H; cbn in H; discriminate H
            | apply (f_equal (fun c => command (call_spec c))) in H; cbn in H;
              discriminate H
            | apply (f_equal call_spec) in H; unfold entry in H;
              cbn [call_spec] in H;
              exfalso; apply (signed_is_not_unsigned options); symmetry; exact H ]
  end.

(** Shows that the command of an explicit log entry is not the unsigned
    commit. *)
Ltac not_unsigned options :=
  subst; cbn [call_spec];
  first [ apply signed_is_not_unsigned
        | intros Heq; apply (f_equal command) in Heq; discriminate Heq ].

(** C3. With [sign = true] and [forceUnsignedOnFailure] unset or false, a
    signed attempt that fails ends the call: it throws the mapper's image
    of that failure, the log holds the failed signed attempt and nothing
    else, so there was no unsigned retry and no write succeeded. *)
Theorem commit_signed_failure_without_fallback :
  forall (options : GitCommitOptions) (context : GitOperationContext RequestContext)
         (w : World) (e : Thrown) (w' : World),
    co_sign options = Some true ->
    co_forceUnsignedOnFailure options = None
    \/ co_forceUnsignedOnFailure options = Some false ->
    execGit (buildGitCommand (signedCommand options))
            (workingDirectory context) (requestContext context) w
    = (Threw e, w') ->
    let run := executeCommit options context (fresh w) in
    run = (Threw (mapGitError e "commit"),
           mkState w' [entry (signedCommand options) (workingDirectory context) false])
    /\ succeededWrites (log (snd run)) = []
    /\ (forall c, In c (log (snd run)) -> call_spec c <> unsignedCommand options).
Proof.
  intros options context w e w' Hsign Hforce Hexec run.
  assert (Hrun : run = (Threw (mapGitError e "commit"),
                        mkState w' [entry (signedCommand options)
                                          (workingDirectory context) false])).
  { subst run. unfold executeCommit, try_catch, bind, shouldSign, fresh.
    rewrite Hsign. run_git Hexec.
    destruct Hforce as [-> | ->]; reflexivity. }
  rewrite Hrun. cbn [snd log]. repeat split.
  intros c [<- | []]. apply signed_is_not_unsigned.
Qed.

(** The write invariant of [executeCommit]. In every commit call at most
    one write attempt succeeds; when the call returns and the signed
    attempt was not rejected with [null], exactly one has; and when the
    signed attempt succeeded the unsigned command was never invoked. *)
Lemma commit_at_most_one_write_succeeds :
  forall (options : GitCommitOptions) (context : GitOperationContext RequestContext)
         (w : World),
    let run := executeCommit options context (fresh w) in
    (List.length (succeededWrites (log (snd run))) <= 1)%nat
    /\ (forall r, fst run = Returned r ->
                  (forall e w1,
                      execGit (buildGitCommand (signedCommand options))
                              (workingDirectory context) (requestContext context) w
                      = (Threw e, w1) ->
                      isNull e = false) ->
                  List.length (succeededWrites (log (snd run))) = 1%nat)
    /\ (In (entry (signedCommand options) (workingDirectory context) true)
           (log (snd run)) ->
        forall c, In c (log (snd run)) -> call_spec c <> unsignedCommand options).
Proof.
  intros options context w run. subst run.
  unfold executeCommit, try_catch, bind, git, fresh. cbn.
  destruct (shouldSign options) eqn:Hs; cbn;
    repeat first
      [ progress each_answer
      | match goal with
        | |- context [Js.truthy_flag (co_forceUnsignedOnFailure options)] =>
            destruct (Js.truthy_flag (co_forceUnsignedOnFailure options)); cbn
        | |- context [isNull ?e] => destruct (isNull e) eqn:?; cbn
        end ];
    (split; [lia | split]);
    try solve [ intros r Hr Hnonnull; try discriminate Hr; try reflexivity;
                exfalso; specialize (Hnonnull _ _ eq_refl); congruence ];
    first [ solve [ intros Hsigned c _; split_log; refute_entry options ]
          | solve [ intros _ c Hin; split_log; not_unsigned options ] ].
Qed.


(** C2, as the code has it. With signing in force and
    [forceUnsignedOnFailure = true], a signed attempt that fails with an
    error, that is with any rejection other than the value [null], is
    followed by the unsigned command, whose arguments end in
    [--no-gpg-sign]; when that attempt and the two read-back queries
    ([rev-parse HEAD], [show]) succeed, the call returns [success = true]
    with the hash read back and the decoded metadata. Nothing is said here
    of a rejection with [null]. *)
Theorem commit_falls_back_to_unsigned :
  forall (options : GitCommitOptions) (context : GitOperationContext RequestContext)
         (w : World) (e : Thrown) (w1 : World),
    let cwd := workingDirectory context in
    let ctx := requestContext context in
    shouldSign options = true ->
    co_forceUnsignedOnFailure options = Some true ->
    execGit (buildGitCommand (signedCommand options)) cwd ctx w = (Threw e, w1) ->
    isNull e = false ->
    let run := executeCommit options context (fresh w) in
    (exists ok,
        firstn 2 (log (snd run))
        = [entry (signedCommand options) cwd false;
           entry (unsignedCommand options) cwd ok])
    /\ args (unsignedCommand options)
       = (commitArgs options ++ ["--no-gpg-sign"])%list
    /\ (forall out w2 h w3 s w4,
          execGit (buildGitCommand (unsignedCommand options)) cwd ctx w1
          = (Returned out, w2) ->
          execGit (buildGitCommand hashCommand) cwd ctx w2 = (Returned h, w3) ->
          execGit (buildGitCommand (showCommand (Js.trim (stdout h)))) cwd ctx w3
          = (Returned s, w4) ->
          run = (Returned (commitResult options (Js.trim (stdout h)) (stdout s)),
                 mkState w4
                   [entry (signedCommand options) cwd false;
                    entry (unsignedCommand options) cwd true;
                    entry hashCommand cwd true;
                    entry (showCommand (Js.trim (stdout h))) cwd true])
          /\ cr_success (commitResult options (Js.trim (stdout h)) (stdout s)) = true).
Proof.
  intros options context w e w1 cwd ctx Hs Hforce Hexec Hnonnull run.
  subst run cwd ctx.
  unfold executeCommit, try_catch, bind, git, fresh. cbn.
  rewrite Hs; cbn. rewrite Hexec; cbn. rewrite Hforce; cbn. rewrite Hnonnull; cbn.
  split; [| split; [reflexivity |]].
  - each_answer; eexists; reflexivity.
  - intros out w2 h w3 s w4 H2 H3 H4.
    rewrite H2; cbn. rewrite H3; cbn. rewrite H4; cbn. split; reflexivity.
Qed.

(** [split] returns the whole string as its only part when the separator
    does not occur in it. *)
Lemma split_scan_absent :
  forall sep s cur,
    Js.includes s sep = false ->
    Js.split_scan sep 0 cur s = [(cur ++ s)%string].
Proof.
  intros sep s; induction s as [| c s IH]; intros cur Habs.
  - cbn. f_equal. clear. induction cur; cbn; congruence.
  - cbn [Js.includes] in Habs. apply orb_false_iff in Habs as [Hpre Hrest].
    cbn [Js.split_scan]. rewrite Hpre. rewrite IH by exact Hrest.
    f_equal. clear. induction cur; cbn; congruence.
Qed.

Lemma split_absent :
  forall s sep, Js.includes s sep = false -> Js.split s sep = [s].
Proof.
  intros s sep Habs. destruct sep as [| a sep'].
  - destruct s; discriminate Habs.
  - unfold Js.split. now rewrite split_scan_absent.
Qed.

(** C8. The decoding of the metadata payload is a total function, and it
    falls back part by part: without the record delimiter there are no
    changed files; a first record without the field delimiter gives
    timestamp zero and is, as a whole, the author name; and the empty
    payload gives the empty author name, zero and no files, whatever the
    delimiters are. *)
Theorem commit_metadata_defaults :
  forall payload : string,
    (Js.includes payload GIT_RECORD_DELIMITER = false ->
     filesChanged payload = [])
    /\ (forall record,
          nth_error (Js.split payload GIT_RECORD_DELIMITER) 0 = Some record ->
          Js.includes record GIT_FIELD_DELIMITER = false ->
          timestamp payload = Js.Num 0 /\ authorName payload = record)
    /\ (Js.includes payload GIT_RECORD_DELIMITER = false ->
        Js.includes payload GIT_FIELD_DELIMITER = false ->
        authorName payload = payload
        /\ timestamp payload = Js.Num 0
        /\ filesChanged payload = [])
    /\ (payload = "" ->
        authorName payload = ""
        /\ timestamp payload = Js.Num 0
        /\ filesChanged payload = []).
Proof.
  intros payload.
  assert (Hrecord : forall record,
             nth_error (Js.split payload GIT_RECORD_DELIMITER) 0 = Some record ->
             Js.includes record GIT_FIELD_DELIMITER = false ->
             timestamp payload = Js.Num 0 /\ authorName payload = record).
  { intros record Hfirst Habs.
    unfold timestamp, authorName, metaParts. rewrite Hfirst.
    rewrite (split_absent _ _ Habs). cbn. split; [reflexivity |].
    destruct record; reflexivity. }
  assert (Hfiles : Js.includes payload GIT_RECORD_DELIMITER = false ->
                   filesChanged payload = []).
  { intros Habs. unfold filesChanged. now rewrite (split_absent _ _ Habs). }
  split; [exact Hfiles |]. split; [exact Hrecord |]. split.
  - intros HabsR HabsF.
    destruct (Hrecord payload) as [Ht Ha]; auto.
    now rewrite (split_absent _ _ HabsR).
  - intros ->. unfold authorName, timestamp, filesChanged, metaParts.
    destruct GIT_RECORD_DELIMITER as [| a r]; cbn.
    + repeat split.
    + destruct GIT_FIELD_DELIMITER as [| b f]; cbn; repeat split.
Qed.

(* ------------------------------------------------------------------- *)
(** *** clone: properties *)

Lemma resolve_is_absolute :
  forall p, NodePath.isAbsolute processCwd = true ->
            NodePath.isAbsolute (NodePath.resolve processCwd p) = true.
Proof.
  intros p Hcwd. unfold NodePath.resolve.
  destruct (Js.truthy p); cbn [fst snd].
  - destruct (NodePath.isAbsolute p); [reflexivity |].
    destruct processCwd; [discriminate Hcwd |]. cbn [Js.truthy].
    rewrite Hcwd. reflexivity.
  - destruct processCwd; [discriminate Hcwd |]. cbn [Js.truthy].
    rewrite Hcwd. reflexivity.
Qed.

(** C5. [executeClone] invokes the tool once, in the parent directory of
    the resolved local path and with that path's last segment as the
    second argument, right after the remote URL; when it returns, the
    result carries the resolved path, which is absolute as soon as the
    process's working directory is. For [localPath = "/work/proj"] these
    are ["/work"], ["proj"] and ["/work/proj"]. *)
Theorem clone_runs_in_parent_directory :
  forall (options : GitCloneOptions) (context : GitOperationContext RequestContext) (w : World),
    let target := NodePath.resolve processCwd (cl_localPath options) in
    let run := executeClone options context (fresh w) in
    (exists rest ok,
        log (snd run)
        = [entry (mkGitCommand "clone"
                    (cl_remoteUrl options :: NodePath.basename target :: rest))
                 (NodePath.dirname target) ok])
    /\ (forall r, fst run = Returned r ->
                  clr_success r = true /\ clr_localPath r = target)
    /\ (NodePath.isAbsolute processCwd = true -> NodePath.isAbsolute target = true)
    /\ (cl_localPath options = "/work/proj" ->
        target = "/work/proj"
        /\ NodePath.dirname target = "/work"
        /\ NodePath.basename target = "proj").
Proof.
  intros options context w target run. subst run target.
  unfold executeClone, try_catch, bind, git, fresh, cloneArgs. cbn.
  split; [| split; [| split]].
  - each_answer; do 2 eexists; reflexivity.
  - intros r. each_answer; intros Hreturned; inversion Hreturned; split; reflexivity.
  - apply resolve_is_absolute.
  - intros ->. repeat split.
Qed.

(** C9, as the code has it. When [executeClone] returns, the branch it
    reports is [options.branch] if that is a non-empty string, and
    ["main"] if it is absent or empty. *)
Theorem clone_reports_branch :
  forall (options : GitCloneOptions) (context : GitOperationContext RequestContext)
         (st : State World) (r : GitCloneResult),
    fst (executeClone options context st) = Returned r ->
    clr_branch r = match cl_branch options with
                   | Some b => if Js.truthy b then b else "main"
                   | None => "main"
                   end.
Proof.
  intros options context st r.
  unfold executeClone, try_catch, bind, git. cbn.
  each_answer; intros H; inversion H; reflexivity.
Qed.

(* ------------------------------------------------------------------- *)
(** *** diff: properties *)

(** C6, as the code has it. With two or more entries in [paths] the tool
    logic throws before it calls the provider: the state is untouched, so
    no subprocess ran and the first path was not used on its own. What it
    throws is a plain [Error] with the multi-path message, which carries
    no error code and is not a validation-kind [McpError]. *)
Theorem diff_rejects_multiple_paths :
  forall (provider : GitProvider) (input : DiffToolInput) (targetPath : string)
         (appContext : RequestContext) (st : State World) (paths : list string),
    in_paths input = Some paths ->
    (2 <= List.length paths)%nat ->
    gitDiffLogic provider input targetPath appContext st
    = (Threw (newError multiPathMessage), st)
    /\ thrown_class (newError multiPathMessage) = PlainError
    /\ thrown_code (newError multiPathMessage) = None
    /\ ~ isValidationError (newError multiPathMessage).
Proof.
  intros provider input targetPath appContext st paths Hpaths Hlen.
  destruct paths as [| p [| q more]]; cbn in Hlen; try lia.
  unfold gitDiffLogic, bind. rewrite Hpaths. cbn.
  repeat split. intros [Hclass _]. discriminate Hclass.
Qed.

(** C10. [includeUntracked] and [stat] have no effect on [executeDiff]:
    two option records that agree on every other field give the same
    command for the diff body, the same command for the diffstat, and the
    same outcome and state from every context and starting state. *)
Theorem diff_ignores_includeUntracked_and_stat :
  forall (o1 o2 : GitDiffOptions) (context : GitOperationContext RequestContext)
         (st : State World),
    d_source o1 = d_source o2 ->
    d_target o1 = d_target o2 ->
    d_path o1 = d_path o2 ->
    d_staged o1 = d_staged o2 ->
    d_nameOnly o1 = d_nameOnly o2 ->
    d_unified o1 = d_unified o2 ->
    buildGitCommand (diffCommand o1) = buildGitCommand (diffCommand o2)
    /\ buildGitCommand (statCommand o1) = buildGitCommand (statCommand o2)
    /\ executeDiff o1 context st = executeDiff o2 context st.
Proof.
  intros o1 o2 context st Hsource Htarget Hpath Hstaged HnameOnly Hunified.
  assert (Hargs : diffArgs o1 = diffArgs o2).
  { unfold diffArgs.
    now rewrite Hsource, Htarget, Hpath, Hstaged, HnameOnly, Hunified. }
  assert (Hdiff : diffCommand o1 = diffCommand o2).
  { unfold diffCommand. now rewrite Hargs. }
  assert (Hstat : statCommand o1 = statCommand o2).
  { unfold statCommand. now rewrite Hargs. }
  repeat split.
  - now rewrite Hdiff.
  - now rewrite Hstat.
  - unfold executeDiff. now rewrite Hdiff, Hstat.
Qed.

(* ------------------------------------------------------------------- *)
(** *** facts about the runtime fragment *)

Lemma append_empty_r : forall s : string, (s ++ "")%string = s.
Proof. induction s as [| c s IH]; cbn; congruence. Qed.

Lemma append_char_assoc :
  forall (s : string) (c : ascii) (r : string),
    ((s ++ String c "") ++ r)%string = (s ++ String c r)%string.
Proof. induction s as [| d s IH]; intros c r; cbn; [reflexivity | now rewrite IH]. Qed.

Lemma trimStart_head :
  forall s,
    Js.trimStart s = ""
    \/ exists c t, Js.trimStart s = String c t /\ Js.isWhiteSpace c = false.
Proof.
  induction s as [| c s IH]; cbn [Js.trimStart]; [now left |].
  destruct (Js.isWhiteSpace c) eqn:Hc; [exact IH | right; eauto].
Qed.

Lemma trimEnd_unfold :
  forall c s,
    Js.trimEnd (String c s)
    = match Js.trimEnd s with
      | EmptyString => if Js.isWhiteSpace c then EmptyString else String c EmptyString
      | t => String c t
      end.
Proof. reflexivity. Qed.

Lemma trimEnd_head :
  forall c t, Js.isWhiteSpace c = false ->
              exists t', Js.trimEnd (String c t) = String c t'.
Proof.
  intros c t Hc. rewrite trimEnd_unfold.
  destruct (Js.trimEnd t); [rewrite Hc |]; eauto.
Qed.

Lemma trimEnd_idem : forall s, Js.trimEnd (Js.trimEnd s) = Js.trimEnd s.
Proof.
  induction s as [| c s IH]; [reflexivity |].
  rewrite trimEnd_unfold.
  destruct (Js.trimEnd s) as [| d t] eqn:Hs.
  - destruct (Js.isWhiteSpace c) eqn:Hc; [reflexivity |].
    rewrite trimEnd_unfold. cbn [Js.trimEnd]. now rewrite Hc.
  - rewrite trimEnd_unfold, IH. reflexivity.
Qed.

Lemma trim_head :
  forall s,
    Js.trim s = ""
    \/ exists c t, Js.trim s = String c t /\ Js.isWhiteSpace c = false.
Proof.
  intros s. unfold Js.trim.
  destruct (trimStart_head s) as [-> | [c [t [-> Hc]]]]; [now left |].
  right. destruct (trimEnd_head c t Hc) as [t' ->]. eauto.
Qed.

Lemma trim_idem : forall s, Js.trim (Js.trim s) = Js.trim s.
Proof.
  intros s. destruct (trim_head s) as [-> | [c [t [Heq Hc]]]]; [reflexivity |].
  unfold Js.trim at 1. rewrite Heq. cbn [Js.trimStart]. rewrite Hc.
  rewrite <- Heq. unfold Js.trim. apply trimEnd_idem.
Qed.

Lemma split_scan_head :
  forall sep s cur,
    exists r tl, Js.split_scan sep 0 cur s = (cur ++ r)%string :: tl.
Proof.
  intros sep s; induction s as [| c s IH]; intros cur.
  - exists "", []. cbn. now rewrite append_empty_r.
  - cbn [Js.split_scan]. destruct (String.prefix sep (String c s)).
    + exists "". eexists. now rewrite append_empty_r.
    + destruct (IH (cur ++ String c "")%string) as [r [tl ->]].
      exists (String c r), tl. now rewrite append_char_assoc.
Qed.

(** The first line of a text that starts with a character other than
    white space starts with that character. *)
Lemma first_line_head :
  forall c t, Js.isWhiteSpace c = false ->
              exists r tl, Js.split (String c t) LF = String c r :: tl.
Proof.
  intros c t Hc. unfold Js.split, LF. cbn [Js.split_scan String.prefix].
  destruct (Ascii.ascii_dec (ascii_of_nat 10) c) as [<- | Hne]; [discriminate Hc |].
  destruct (split_scan_head (String (ascii_of_nat 10) "") t (String c ""))
    as [r [tl Hscan]].
  exists r, tl. cbn in Hscan. destruct t; cbn in *; exact Hscan.
Qed.

(* ------------------------------------------------------------------- *)
(** *** merge-base: the remaining paths *)

Lemma mergeBase_runs_once :
  forall (options : GitMergeBaseOptions) (context : GitOperationContext RequestContext)
         (st : State World) (r : Outcome GitOutput) (w' : World),
    effectiveMode options <> ModeIsAncestor \/ List.length (mb_refs options) = 2%nat ->
    mb_refs options <> [] ->
    execGit (buildGitCommand (mergeBaseCommand (effectiveMode options) (mb_refs options)))
            (workingDirectory context) (requestContext context) (world st)
    = (r, w') ->
    let refs := mb_refs options in
    let mode := effectiveMode options in
    let st' := mkState w'
                 (log st ++ [entry (mergeBaseCommand mode refs)
                                   (workingDirectory context)
                                   (match r with Returned _ => true | Threw _ => false end)]) in
    executeMergeBase options context st
    = match r with
      | Returned gitOutput =>
          (Returned
             (if isAncestorMode mode then mkMergeBaseResult true MbNull (Some true) refs mode
              else if negb (Js.truthy (Js.trim (stdout gitOutput)))
                   then mkMergeBaseResult true MbNull None refs mode
                   else if isAllMode mode
                        then mkMergeBaseResult true
                               (MbHashes (hashLines (Js.trim (stdout gitOutput)))) None refs mode
                        else mkMergeBaseResult true
                               (firstHash (hashLines (Js.trim (stdout gitOutput)))) None
                               refs mode), st')
      | Threw e =>
          (if isAncestorMode mode && instanceofError e && codeIs e 1
           then Returned (mkMergeBaseResult true MbNull (Some false) refs mode)
           else Threw (mapGitError e "merge-base"), st')
      end.
Proof.
  intros options context st r w' Hcount Hrefs Hexec refs mode st'.
  subst refs mode st'. unfold executeMergeBase, effectiveMode in *.
  set (mode := match mb_mode options with Some m => m | None => ModeDefault end) in *.
  assert (Hfirst : isAncestorMode mode && negb (List.length (mb_refs options) =? 2)%nat = false).
  { destruct Hcount as [Hmode | Hlen].
    - destruct mode; try reflexivity. contradiction.
    - rewrite Hlen. apply andb_false_r. }
  assert (Hsecond : (List.length (mb_refs options) <? 1)%nat = false).
  { destruct (mb_refs options); [contradiction | reflexivity]. }
  unfold try_catch, bind. rewrite Hfirst, Hsecond.
  unfold git. cbn [world log]. rewrite Hexec.
  destruct r as [gitOutput | e]; cbn.
  - destruct (isAncestorMode mode); cbn; [reflexivity |].
    destruct (Js.truthy (Js.trim (stdout gitOutput))); cbn; [| reflexivity].
    destruct (isAllMode mode); reflexivity.
  - destruct (isAncestorMode mode && instanceofError e && codeIs e 1); reflexivity.
Qed.

Lemma trim_keeps_head :
  forall c r, Js.isWhiteSpace c = false ->
              exists t', Js.trim (String c r) = String c t'.
Proof.
  intros c r Hc. unfold Js.trim. cbn [Js.trimStart]. rewrite Hc.
  now apply trimEnd_head.
Qed.

Lemma hashLines_clean :
  forall output h, In h (hashLines output) -> h <> "" /\ Js.trim h = h.
Proof.
  intros output h Hin. unfold hashLines in Hin.
  apply filter_In in Hin as [Hin Hlen].
  apply in_map_iff in Hin as [line [<- _]]. split.
  - intros Hempty. rewrite Hempty in Hlen. discriminate Hlen.
  - apply trim_idem.
Qed.

Lemma hashLines_first :
  forall s,
    Js.trim s <> "" ->
    exists line rest more,
      Js.split (Js.trim s) LF = line :: rest
      /\ hashLines (Js.trim s) = Js.trim line :: more
      /\ Js.trim line <> "".
Proof.
  intros s Hnonblank.
  destruct (trim_head s) as [Hempty | [c [t [Heq Hc]]]]; [contradiction |].
  destruct (first_line_head c t Hc) as [r [tl Hsplit]].
  destruct (trim_keeps_head c r Hc) as [t' Htrim].
  exists (String c r), tl.
  eexists. rewrite Heq. split; [exact Hsplit |]. split.
  - unfold hashLines. rewrite Hsplit. cbn [map filter]. rewrite Htrim.
    cbn [String.length Nat.ltb Nat.leb]. reflexivity.
  - rewrite Htrim. discriminate.
Qed.

(** X1. In the [default] and [all] modes, a tool run that prints nothing
    but white space gives [{success: true, mergeBase: null}] without an
    [isAncestor] property; the [all] mode, too, answers [null] and not an
    empty list. *)
Theorem mergeBase_blank_output_is_null :
  forall (options : GitMergeBaseOptions) (context : GitOperationContext RequestContext)
         (st : State World) (gitOutput : GitOutput) (w' : World),
    effectiveMode options <> ModeIsAncestor ->
    mb_refs options <> [] ->
    execGit (buildGitCommand (mergeBaseCommand (effectiveMode options) (mb_refs options)))
            (workingDirectory context) (requestContext context) (world st)
    = (Returned gitOutput, w') ->
    Js.trim (stdout gitOutput) = "" ->
    fst (executeMergeBase options context st)
    = Returned (mkMergeBaseResult true MbNull None (mb_refs options)
                  (effectiveMode options)).
Proof.
  intros options context st gitOutput w' Hmode Hrefs Hexec Hblank.
  rewrite (mergeBase_runs_once options context st _ _ (or_introl Hmode) Hrefs Hexec).
  cbn [fst]. rewrite Hblank. cbn.
  destruct (effectiveMode options); try reflexivity. contradiction.
Qed.

(** X2. In the [default] mode, a tool run that prints anything but white
    space never gives [null]: the answer is the first line of the trimmed
    output, itself trimmed, and it is not empty. *)
Theorem mergeBase_default_is_first_line :
  forall (options : GitMergeBaseOptions) (context : GitOperationContext RequestContext)
         (st : State World) (gitOutput : GitOutput) (w' : World),
    effectiveMode options = ModeDefault ->
    mb_refs options <> [] ->
    execGit (buildGitCommand (mergeBaseCommand ModeDefault (mb_refs options)))
            (workingDirectory context) (requestContext context) (world st)
    = (Returned gitOutput, w') ->
    Js.trim (stdout gitOutput) <> "" ->
    exists line rest,
      Js.split (Js.trim (stdout gitOutput)) LF = line :: rest
      /\ Js.trim line <> ""
      /\ fst (executeMergeBase options context st)
         = Returned (mkMergeBaseResult true (MbHash (Js.trim line)) None
                       (mb_refs options) ModeDefault).
Proof.
  intros options context st gitOutput w' Hmode Hrefs Hexec Hnonblank.
  destruct (hashLines_first (stdout gitOutput) Hnonblank)
    as [line [rest [more [Hsplit [Hlines Hline]]]]].
  exists line, rest. split; [exact Hsplit |]. split; [exact Hline |].
  assert (Hcount : effectiveMode options <> ModeIsAncestor
                   \/ List.length (mb_refs options) = 2%nat).
  { left. rewrite Hmode. discriminate. }
  rewrite <- Hmode in Hexec.
  rewrite (mergeBase_runs_once options context st _ _ Hcount Hrefs Hexec).
  cbn [fst]. rewrite Hmode. cbn [isAncestorMode isAllMode].
  destruct (Js.trim (stdout gitOutput)) eqn:Htrim; [contradiction |].
  cbn [Js.truthy negb]. rewrite Hlines. unfold firstHash.
  destruct (Js.trim line); [contradiction | reflexivity].
Qed.

(** X3. In the [all] mode, a tool run that prints anything but white space
    gives a list that is not empty, and each of its entries is a non-empty
    string without white space at either end. *)
Theorem mergeBase_all_lines_are_clean :
  forall (options : GitMergeBaseOptions) (context : GitOperationContext RequestContext)
         (st : State World) (gitOutput : GitOutput) (w' : World),
    effectiveMode options = ModeAll ->
    mb_refs options <> [] ->
    execGit (buildGitCommand (mergeBaseCommand ModeAll (mb_refs options)))
            (workingDirectory context) (requestContext context) (world st)
    = (Returned gitOutput, w') ->
    Js.trim (stdout gitOutput) <> "" ->
    exists hashes,
      fst (executeMergeBase options context st)
      = Returned (mkMergeBaseResult true (MbHashes hashes) None
                    (mb_refs options) ModeAll)
      /\ hashes <> []
      /\ (forall h, In h hashes -> h <> "" /\ Js.trim h = h).
Proof.
  intros options context st gitOutput w' Hmode Hrefs Hexec Hnonblank.
  exists (hashLines (Js.trim (stdout gitOutput))).
  assert (Hcount : effectiveMode options <> ModeIsAncestor
                   \/ List.length (mb_refs options) = 2%nat).
  { left. rewrite Hmode. discriminate. }
  rewrite <- Hmode in Hexec.
  rewrite (mergeBase_runs_once options context st _ _ Hcount Hrefs Hexec).
  cbn [fst]. rewrite Hmode. cbn [isAncestorMode isAllMode]. split; [| split].
  - destruct (Js.trim (stdout gitOutput)); [contradiction | reflexivity].
  - destruct (hashLines_first (stdout gitOutput) Hnonblank)
      as [line [rest [more [_ [Hlines _]]]]].
    rewrite Hlines. discriminate.
  - intros h. apply hashLines_clean.
Qed.

(** X4. Outside the [is-ancestor] mode exit code 1 has no special
    meaning: whatever [execGit] rejects with, code 1 included, is thrown
    on as the mapper's image of it. *)
Theorem mergeBase_exit_1_fails_outside_ancestry :
  forall (options : GitMergeBaseOptions) (context : GitOperationContext RequestContext)
         (st : State World) (e : Thrown) (w' : World),
    effectiveMode options <> ModeIsAncestor ->
    mb_refs options <> [] ->
    execGit (buildGitCommand (mergeBaseCommand (effectiveMode options) (mb_refs options)))
            (workingDirectory context) (requestContext context) (world st)
    = (Threw e, w') ->
    fst (executeMergeBase options context st) = Threw (mapGitError e "merge-base").
Proof.
  intros options context st e w' Hmode Hrefs Hexec.
  rewrite (mergeBase_runs_once options context st _ _ (or_introl Hmode) Hrefs Hexec).
  destruct (effectiveMode options); try reflexivity. contradiction.
Qed.

(** X5. Under [is-ancestor] with two refs, a tool run that exits 0 gives
    [isAncestor: true] and [mergeBase: null], whatever it printed. *)
Theorem mergeBase_ancestor_ignores_output :
  forall (a b : string) (context : GitOperationContext RequestContext)
         (st : State World) (gitOutput : GitOutput) (w' : World),
    execGit (buildGitCommand (mergeBaseCommand ModeIsAncestor [a; b]))
            (workingDirectory context) (requestContext context) (world st)
    = (Returned gitOutput, w') ->
    fst (executeMergeBase (mkMergeBaseOptions [a; b] (Some ModeIsAncestor)) context st)
    = Returned (mkMergeBaseResult true MbNull (Some true) [a; b] ModeIsAncestor).
Proof.
  intros a b context st gitOutput w' Hexec.
  rewrite (mergeBase_runs_once (mkMergeBaseOptions [a; b] (Some ModeIsAncestor))
             context st _ _ (or_intror eq_refl)
             ltac:(discriminate) Hexec).
  reflexivity.
Qed.

(** Case analysis over the two precondition checks, the answer of the
    tool and the tests on its output. *)
Ltac mergeBase_branches :=
  repeat match goal with
         | |- context [negb (?n =? 2)%nat] => destruct (n =? 2)%nat eqn:?; cbn [negb]
         | |- context [(?n <? 1)%nat] => destruct (n <? 1)%nat eqn:?
         end;
  cbn; each_answer;
  repeat match goal with
         | |- context [Js.truthy ?s] => destruct (Js.truthy s); cbn
         | |- context [instanceofError ?e && codeIs ?e 1] =>
             destruct (instanceofError e && codeIs e 1); cbn
         end.

Ltac mergeBase_cases options :=
  unfold executeMergeBase, effectiveMode, try_catch, bind, git; cbn [world log];
  destruct (mb_mode options) as [[| |] |]; cbn [isAncestorMode isAllMode andb];
  mergeBase_branches.

(** X6. Whenever [executeMergeBase] returns, the result says
    [success: true] and echoes the refs and the mode in force; the refs
    are not empty; [isAncestor] is present exactly in the [is-ancestor]
    mode, where [mergeBase] is [null] and the refs are two. *)
Theorem mergeBase_result_echoes_request :
  forall (options : GitMergeBaseOptions) (context : GitOperationContext RequestContext)
         (st : State World) (r : GitMergeBaseResult),
    fst (executeMergeBase options context st) = Returned r ->
    mbr_success r = true
    /\ mbr_refs r = mb_refs options
    /\ mbr_mode r = effectiveMode options
    /\ mb_refs options <> []
    /\ (effectiveMode options = ModeIsAncestor ->
        mbr_mergeBase r = MbNull
        /\ mbr_isAncestor r <> None
        /\ List.length (mb_refs options) = 2%nat)
    /\ (effectiveMode options <> ModeIsAncestor -> mbr_isAncestor r = None).
Proof.
  intros options context st r.
  assert (Hrefs : forall l : list string, (List.length l <? 1)%nat = false -> l <> []).
  { intros [| x l]; [discriminate | discriminate]. }
  assert (Htwo : forall l : list string, (List.length l =? 2)%nat = true -> l <> []).
  { intros [| x l]; [discriminate | discriminate]. }
  mergeBase_cases options; intros Hreturned; try discriminate Hreturned;
    inversion Hreturned; subst r; cbn;
    repeat split; auto; try discriminate; try congruence;
    try (intros; now apply Nat.eqb_eq).
Qed.

(** X7. A call of [executeMergeBase] runs the tool at most once, in the
    working directory of the context, with the [merge-base] command, the
    flag of the mode, if it has one, and then the refs in their order. *)
Theorem mergeBase_spawns_at_most_once :
  forall (options : GitMergeBaseOptions) (context : GitOperationContext RequestContext)
         (st : State World),
    log (snd (executeMergeBase options context st)) = log st
    \/ exists ok,
        log (snd (executeMergeBase options context st))
        = (log st ++ [entry (mkGitCommand "merge-base"
                               (modeFlags (effectiveMode options) ++ mb_refs options))
                            (workingDirectory context) ok])%list.
Proof.
  intros options context st.
  mergeBase_cases options;
    first [ left; reflexivity | right; eexists; reflexivity ].
Qed.

(** X8. Through the CLI provider the [git_merge_base] tool gives back the
    mode and the refs it was called with: the mode ['default'], which the
    tool leaves out of the options, is put back by the provider. *)
Theorem gitMergeBaseLogic_echoes_mode_and_refs :
  forall (input : MergeBaseToolInput) (targetPath : string)
         (appContext : RequestContext) (st : State World)
         (out : MergeBaseToolOutput),
    fst (gitMergeBaseLogic cliProvider input targetPath appContext st) = Returned out ->
    mbout_success out = true
    /\ mbout_mode out = mbin_mode input
    /\ mbout_refs out = mbin_refs input.
Proof.
  intros input targetPath appContext st out.
  destruct input as [path refs mode].
  unfold gitMergeBaseLogic, bind.
  cbn [provider_mergeBase cliProvider mbin_refs mbin_mode].
  unfold executeMergeBase, try_catch, bind, git.
  destruct mode; cbn [mb_mode mb_refs world log isAncestorMode isAllMode andb];
    mergeBase_branches;
    intros Hreturned; try discriminate Hreturned;
    inversion Hreturned; subst; cbn; repeat split.
Qed.

(* ------------------------------------------------------------------- *)
(** *** commit: the remaining paths *)

(** Unfolds a commit call on a fresh state down to the answers of the
    tool. *)
Ltac commit_cases options :=
  unfold executeCommit, try_catch, bind, git, fresh; cbn;
  destruct (shouldSign options) eqn:?; cbn;
  repeat first
    [ progress each_answer
    | match goal with
      | |- context [Js.truthy_flag (co_forceUnsignedOnFailure options)] =>
          destruct (Js.truthy_flag (co_forceUnsignedOnFailure options)) eqn:?; cbn
      | |- context [isNull ?e] => destruct (isNull e) eqn:?; cbn
      end ].

(** X9. When signing is off, by [sign = false] whatever the process-wide
    default is, or by that default when [sign] is absent, the first
    invocation is the unsigned commit and the signed command is never
    run; if that invocation fails the call throws its mapped error and
    runs nothing else. *)
Theorem commit_without_signing :
  forall (options : GitCommitOptions) (context : GitOperationContext RequestContext)
         (w : World),
    co_sign options = Some false
    \/ (co_sign options = None /\ shouldSignCommits = false) ->
    let cwd := workingDirectory context in
    let run := executeCommit options context (fresh w) in
    (exists ok rest, log (snd run) = entry (unsignedCommand options) cwd ok :: rest)
    /\ (forall c, In c (log (snd run)) -> call_spec c <> signedCommand options)
    /\ (forall e w1,
          execGit (buildGitCommand (unsignedCommand options)) cwd
                  (requestContext context) w = (Threw e, w1) ->
          run = (Threw (mapGitError e "commit"),
                 mkState w1 [entry (unsignedCommand options) cwd false])).
Proof.
  intros options context w Hoff cwd run. subst cwd run.
  assert (Hs : shouldSign options = false).
  { unfold shouldSign. destruct Hoff as [-> | [-> ->]]; reflexivity. }
  split; [| split].
  - commit_cases options; try discriminate; do 2 eexists; reflexivity.
  - commit_cases options; try discriminate;
      intros c Hin; split_log; subst c; cbn [call_spec];
      first [ intros Heq; apply (signed_is_not_unsigned options); symmetry; exact Heq
            | intros Heq; apply (f_equal command) in Heq; discriminate Heq ].
  - intros e w1 Hexec.
    unfold executeCommit, try_catch, bind, git, fresh. cbn.
    rewrite Hs; cbn. rewrite Hexec; cbn. reflexivity.
Qed.

(** X10. When the signed attempt fails with an error, that is with any
    rejection other than the value [null], and, under
    [forceUnsignedOnFailure], the unsigned attempt fails as well, the call
    throws the mapped error of the unsigned attempt; the error of the
    signed attempt is not reported, and nothing is read back. *)
Theorem commit_both_attempts_fail :
  forall (options : GitCommitOptions) (context : GitOperationContext RequestContext)
         (w : World) (e1 e2 : Thrown) (w1 w2 : World),
    let cwd := workingDirectory context in
    let ctx := requestContext context in
    shouldSign options = true ->
    co_forceUnsignedOnFailure options = Some true ->
    execGit (buildGitCommand (signedCommand options)) cwd ctx w = (Threw e1, w1) ->
    isNull e1 = false ->
    execGit (buildGitCommand (unsignedCommand options)) cwd ctx w1 = (Threw e2, w2) ->
    executeCommit options context (fresh w)
    = (Threw (mapGitError e2 "commit"),
       mkState w2 [entry (signedCommand options) cwd false;
                   entry (unsignedCommand options) cwd false]).
Proof.
  intros options context w e1 e2 w1 w2 cwd ctx Hs Hforce H1 Hnonnull H2.
  subst cwd ctx.
  unfold executeCommit, try_catch, bind, git, fresh. cbn.
  rewrite Hs; cbn. rewrite H1; cbn. rewrite Hforce; cbn. rewrite Hnonnull; cbn.
  rewrite H2; cbn.
  reflexivity.
Qed.

(** X11. The call can fail after the commit was written: when the write
    went through and [rev-parse HEAD], or after it [show], fails, the call
    throws the mapped error of that query, and the log holds a successful
    write. *)
Theorem commit_fails_when_readback_fails :
  forall (options : GitCommitOptions) (context : GitOperationContext RequestContext)
         (w : World) (out : GitOutput) (w1 : World),
    let cwd := workingDirectory context in
    let ctx := requestContext context in
    let written :=
      if shouldSign options then signedCommand options else unsignedCommand options in
    execGit (buildGitCommand written) cwd ctx w = (Returned out, w1) ->
    let run := executeCommit options context (fresh w) in
    (forall e w2,
        execGit (buildGitCommand hashCommand) cwd ctx w1 = (Threw e, w2) ->
        run = (Threw (mapGitError e "commit"),
               mkState w2 [entry written cwd true; entry hashCommand cwd false]))
    /\ (forall h w2 e w3,
          execGit (buildGitCommand hashCommand) cwd ctx w1 = (Returned h, w2) ->
          execGit (buildGitCommand (showCommand (Js.trim (stdout h)))) cwd ctx w2
          = (Threw e, w3) ->
          run = (Threw (mapGitError e "commit"),
                 mkState w3 [entry written cwd true; entry hashCommand cwd true;
                             entry (showCommand (Js.trim (stdout h))) cwd false]))
    /\ (forall r, fst run = Threw r ->
                  List.length (succeededWrites (log (snd run))) = 1%nat).
Proof.
  intros options context w out w1 cwd ctx written Hwrite run.
  subst cwd ctx written run.
  unfold executeCommit, try_catch, bind, git, fresh. cbn.
  destruct (shouldSign options); cbn; rewrite Hwrite; cbn.
  - split; [| split].
    + intros e w2 H2. rewrite H2; reflexivity.
    + intros h w2 e w3 H2 H3. rewrite H2; cbn. rewrite H3; reflexivity.
    + each_answer; intros r Hr; try discriminate Hr; reflexivity.
  - split; [| split].
    + intros e w2 H2. rewrite H2; reflexivity.
    + intros h w2 e w3 H2 H3. rewrite H2; cbn. rewrite H3; reflexivity.
    + each_answer; intros r Hr; try discriminate Hr; reflexivity.
Qed.

(** X12. Whenever [executeCommit] returns, the result says
    [success: true], carries the message of the options and a hash
    without white space at either end, and the last two invocations were
    [rev-parse HEAD] and [show] for exactly that hash, both successful. *)
Theorem commit_result_is_read_back :
  forall (options : GitCommitOptions) (context : GitOperationContext RequestContext)
         (w : World) (r : GitCommitResult),
    let run := executeCommit options context (fresh w) in
    fst run = Returned r ->
    cr_success r = true
    /\ cr_message r = co_message options
    /\ Js.trim (cr_commitHash r) = cr_commitHash r
    /\ exists writes,
        log (snd run)
        = (writes ++ [entry hashCommand (workingDirectory context) true;
                      entry (showCommand (cr_commitHash r))
                            (workingDirectory context) true])%list.
Proof.
  intros options context w r run. subst run.
  commit_cases options; intros Hreturned; try discriminate Hreturned;
    inversion Hreturned; subst r; cbn [cr_success cr_message cr_commitHash commitResult];
    (split; [reflexivity | split; [reflexivity | split; [apply trim_idem |]]]);
    first [ eexists [_]; reflexivity | eexists [_; _]; reflexivity ].
Qed.

(** X13. A commit call runs the tool at least once and at most four
    times; it runs it three or four times when it returns, and four times
    only when signing was on with [forceUnsignedOnFailure]. *)
Theorem commit_spawns_at_most_four :
  forall (options : GitCommitOptions) (context : GitOperationContext RequestContext)
         (w : World),
    let run := executeCommit options context (fresh w) in
    let n := List.length (log (snd run)) in
    (1 <= n <= 4)%nat
    /\ (forall r, fst run = Returned r -> n = 3%nat \/ n = 4%nat)
    /\ (n = 4%nat ->
        shouldSign options = true
        /\ Js.truthy_flag (co_forceUnsignedOnFailure options) = true).
Proof.
  intros options context w run n. subst n run.
  commit_cases options; cbn;
    (split; [lia | split; [intros r Hr; try discriminate Hr; auto |]]);
    intros Hn; try discriminate Hn; split; reflexivity.
Qed.

(* ------------------------------------------------------------------- *)
(** *** commit: decoding what [show] printed *)

Lemma append_assoc :
  forall a b c : string, ((a ++ b) ++ c)%string = (a ++ b ++ c)%string.
Proof. induction a as [| x a IH]; intros b c; cbn; [reflexivity | now rewrite IH]. Qed.

Lemma append_length :
  forall a b : string,
    String.length (a ++ b) = (String.length a + String.length b)%nat.
Proof. induction a as [| x a IH]; intros b; cbn; [reflexivity | now rewrite IH]. Qed.

Lemma prefix_append : forall p y, String.prefix p (p ++ y) = true.
Proof.
  induction p as [| c p IH]; intros y; cbn; [now destruct y |].
  destruct (Ascii.ascii_dec c c); [apply IH | contradiction].
Qed.

(** A prefix that fits into the first part of a concatenation is a prefix
    of that part. *)
Lemma prefix_of_front :
  forall p u v,
    (String.length p <= String.length u)%nat ->
    String.prefix p (u ++ v) = true -> String.prefix p u = true.
Proof.
  induction p as [| c p IH]; intros u v Hlen Hpre.
  - now destruct u.
  - destruct u as [| d u]; cbn in Hlen; [lia |].
    cbn in Hpre |- *. destruct (Ascii.ascii_dec c d); [| discriminate Hpre].
    apply (IH u v); [lia | exact Hpre].
Qed.

Lemma split_scan_skip :
  forall sep x cur b,
    Js.split_scan sep (String.length x) cur (x ++ b) = Js.split_scan sep 0 cur b.
Proof.
  intros sep x; induction x as [| c x IH]; intros cur b; [reflexivity |].
  cbn. apply IH.
Qed.

(** [split] cuts at the first occurrence of the separator. *)
Lemma split_scan_first :
  forall sep a b cur,
    sep <> "" ->
    indexOf (a ++ sep) sep = Some (String.length a) ->
    Js.split_scan sep 0 cur (a ++ sep ++ b)
    = (cur ++ a)%string :: Js.split_scan sep 0 "" b.
Proof.
  intros sep a b; induction a as [| c a IH]; intros cur Hsep Hfirst.
  - destruct sep as [| d sep']; [contradiction |].
    cbn [append]. rewrite append_empty_r.
    change (String d sep' ++ b)%string with (String d (sep' ++ b)).
    cbn [Js.split_scan].
    change (String d (sep' ++ b)) with (String d sep' ++ b)%string.
    rewrite prefix_append. cbn [String.length Nat.sub]. rewrite Nat.sub_0_r.
    now rewrite split_scan_skip.
  - cbn [append indexOf] in Hfirst.
    destruct (String.prefix sep (String c (a ++ sep))) eqn:Hpre; [discriminate Hfirst |].
    destruct (indexOf (a ++ sep) sep) as [k |] eqn:Hrest; [| discriminate Hfirst].
    cbn in Hfirst. injection Hfirst as ->.
    cbn [append Js.split_scan].
    assert (Hno : String.prefix sep (String c (a ++ sep ++ b)) = false).
    { destruct (String.prefix sep (String c (a ++ sep ++ b))) eqn:Hfull; [| reflexivity].
      rewrite <- Hpre. symmetry.
      apply (prefix_of_front sep (String c (a ++ sep)) b).
      - cbn. rewrite append_length. lia.
      - cbn [append]. rewrite append_assoc. exact Hfull. }
    rewrite Hno. rewrite (IH (cur ++ String c "")%string Hsep eq_refl).
    now rewrite append_char_assoc.
Qed.

Lemma split_first :
  forall sep a b,
    sep <> "" ->
    indexOf (a ++ sep) sep = Some (String.length a) ->
    Js.split (a ++ sep ++ b) sep = a :: Js.split b sep.
Proof.
  intros sep a b Hsep Hfirst. unfold Js.split.
  destruct sep as [| d sep']; [contradiction |].
  now rewrite split_scan_first.
Qed.

Lemma includes_nonempty : forall s sep, Js.includes s sep = false -> sep <> "".
Proof. intros s sep Habs ->. destruct s; discriminate Habs. Qed.

(** X14. Decoding inverts the format that [showCommand] asks for. When
    the payload is the author name, the field delimiter, the author time,
    the record delimiter and then the rest, each delimiter occurring first
    where the format puts it and nowhere after, the decoded author name
    and time are the ones written, and the changed files are the lines of
    the rest that are not blank. *)
Theorem commit_metadata_roundtrip :
  forall author time rest : string,
    indexOf (author ++ GIT_FIELD_DELIMITER) GIT_FIELD_DELIMITER
    = Some (String.length author) ->
    Js.includes time GIT_FIELD_DELIMITER = false ->
    indexOf ((author ++ GIT_FIELD_DELIMITER ++ time) ++ GIT_RECORD_DELIMITER)
            GIT_RECORD_DELIMITER
    = Some (String.length (author ++ GIT_FIELD_DELIMITER ++ time)) ->
    Js.includes rest GIT_RECORD_DELIMITER = false ->
    authorName (showPayload author time rest) = author
    /\ timestamp (showPayload author time rest)
       = Js.parseInt10 (if Js.truthy time then time else "0")
    /\ filesChanged (showPayload author time rest)
       = filter (fun f => Js.truthy (Js.trim f)) (Js.split rest LF).
Proof.
  intros author time rest HfieldAt HfieldNot HrecordAt HrecordNot.
  assert (Hparts : Js.split (showPayload author time rest) GIT_RECORD_DELIMITER
                   = [(author ++ GIT_FIELD_DELIMITER ++ time)%string; rest]).
  { unfold showPayload.
    replace (author ++ GIT_FIELD_DELIMITER ++ time ++ GIT_RECORD_DELIMITER ++ rest)%string
      with ((author ++ GIT_FIELD_DELIMITER ++ time) ++ GIT_RECORD_DELIMITER ++ rest)%string
      by (now rewrite !append_assoc).
    rewrite split_first; [| now apply (includes_nonempty rest) | exact HrecordAt].
    now rewrite (split_absent _ _ HrecordNot). }
  assert (Hmeta : metaParts (showPayload author time rest) = [author; time]).
  { unfold metaParts. rewrite Hparts. cbn [nth_error].
    rewrite split_first; [| now apply (includes_nonempty time) | exact HfieldAt].
    now rewrite (split_absent _ _ HfieldNot). }
  unfold authorName, timestamp, filesChanged. rewrite Hmeta, Hparts.
  cbn [nth_error Js.or_else]. repeat split.
  destruct author; reflexivity.
Qed.

(** Segments of a split at a single character do not hold it. *)
Lemma split_scan_char_free :
  forall (c : ascii) (s cur seg : string),
    ~ In c (list_ascii_of_string cur) ->
    In seg (Js.split_scan (String c "") 0 cur s) ->
    ~ In c (list_ascii_of_string seg).
Proof.
  intros c s; induction s as [| d s IH]; intros cur seg Hcur Hin.
  - destruct Hin as [<- | []]. exact Hcur.
  - cbn [Js.split_scan String.prefix] in Hin.
    destruct (Ascii.ascii_dec c d) as [-> | Hne].
    + replace (String.prefix "" s) with true in Hin by (now destruct s).
      cbn in Hin. destruct Hin as [<- | Hin]; [exact Hcur |].
      apply (IH "" seg); [intros [] | exact Hin].
    + apply (IH (cur ++ String d "")%string seg); [| exact Hin].
      intros Hwas. apply Hcur. clear - Hwas Hne.
      induction cur as [| x cur IHc]; cbn in *.
      * destruct Hwas as [<- | []]. contradiction.
      * destruct Hwas as [-> | Hwas]; [now left | right; now apply IHc].
Qed.

(** X15. Every entry of the decoded list of changed files holds a
    character that is not white space, and no line feed: blank lines of
    the payload are dropped and no entry spans two lines. *)
Theorem commit_files_are_single_nonblank_lines :
  forall (payload f : string),
    In f (filesChanged payload) ->
    Js.trim f <> "" /\ ~ In (ascii_of_nat 10) (list_ascii_of_string f).
Proof.
  intros payload f Hin. unfold filesChanged in Hin.
  destruct (nth_error (Js.split payload GIT_RECORD_DELIMITER) 1) as [p |];
    [| destruct Hin].
  apply filter_In in Hin as [Hin Hkept]. split.
  - intros Hblank. rewrite Hblank in Hkept. discriminate Hkept.
  - unfold Js.split, LF in Hin.
    apply (split_scan_char_free (ascii_of_nat 10) p "" f); [intros [] | exact Hin].
Qed.

(* ------------------------------------------------------------------- *)
(** *** clone and diff: the remaining paths *)

(** X16. [executeClone] treats an empty branch, depth 0 and a flag that
    is [false] exactly as if they were absent: the arguments, the outcome
    and the state are the same. In particular [depth: 0] never reaches
    the tool. *)
Theorem clone_drops_falsy_options :
  forall (options : GitCloneOptions) (context : GitOperationContext RequestContext)
         (st : State World),
    (forall target, cloneArgs options target = cloneArgs (withoutFalsy options) target)
    /\ executeClone options context st
       = executeClone (withoutFalsy options) context st.
Proof.
  intros options context st.
  split; [intros target |];
    unfold executeClone, withoutFalsy, cloneArgs, Js.truthy_opt, Js.truthy_num;
    destruct options as [url path [b |] [d |] [[|] |] [[|] |] [[|] |]]; cbn;
    try (destruct (Js.truthy b) eqn:Hb; cbn; try rewrite Hb);
    try (destruct (d =? 0)%Z eqn:Hd; cbn; try rewrite Hd);
    reflexivity.
Qed.

(** The arguments of the diff body that can be told from [--name-only] by
    their first characters. *)
Lemma unified_is_not_name_only :
  forall u, (("--unified=" ++ u) =? "--name-only") = false.
Proof. reflexivity. Qed.

(** X17. The diffstat invocation never carries [--name-only] and always
    ends in [--stat]. When [nameOnly] is off and neither ref nor the path
    is the string ["--name-only"] itself, it is the invocation of the diff
    body with [--stat] added; a ref or path that is that very string is
    taken out of the diffstat invocation as well. *)
Theorem diff_stat_command_shape :
  forall options : GitDiffOptions,
    command (statCommand options) = command (diffCommand options)
    /\ ~ In "--name-only" (args (statCommand options))
    /\ (exists front, args (statCommand options) = (front ++ ["--stat"])%list)
    /\ (Js.truthy_flag (d_nameOnly options) = false ->
        d_source options <> Some "--name-only" ->
        d_target options <> Some "--name-only" ->
        d_path options <> Some "--name-only" ->
        args (statCommand options) = (args (diffCommand options) ++ ["--stat"])%list).
Proof.
  intros options. split; [reflexivity |]. split; [| split].
  - cbn [args statCommand]. intros Hin. apply in_app_or in Hin as [Hin | Hin].
    + apply filter_In in Hin as [_ Hkept]. discriminate Hkept.
    + destruct Hin as [Hin | []]. discriminate Hin.
  - eexists. reflexivity.
  - intros HnameOnly Hsource Htarget Hpath.
    cbn [args statCommand diffCommand]. f_equal.
    apply forallb_filter_id. unfold diffArgs. rewrite HnameOnly.
    rewrite !forallb_app. cbn [negb andb].
    assert (Hkeep : forall s : string, s <> "--name-only" ->
                                       negb (s =? "--name-only") = true).
    { intros s Hs. apply negb_true_iff, String.eqb_neq. exact Hs. }
    repeat (apply andb_true_iff; split).
    + destruct (Js.truthy_flag (d_staged options)); reflexivity.
    + reflexivity.
    + destruct (d_source options) as [s |]; [| reflexivity].
      destruct (Js.truthy s); [| reflexivity]. cbn. rewrite Hkeep; [reflexivity |].
      intros ->. now apply Hsource.
    + destruct (d_target options) as [s |]; [| reflexivity].
      destruct (Js.truthy s); [| reflexivity]. cbn. rewrite Hkeep; [reflexivity |].
      intros ->. now apply Htarget.
    + destruct (d_path options) as [s |]; [| reflexivity].
      destruct (Js.truthy s); [| reflexivity]. cbn. rewrite Hkeep; [reflexivity |].
      intros ->. now apply Hpath.
    + destruct (d_unified options) as [u |]; [| reflexivity].
      destruct (negb (u =? 0)%Z); [| reflexivity]. cbn [andb negb forallb].
      now rewrite unified_is_not_name_only.
Qed.

(** X18. [unified] reaches the tool only when it is not zero and
    [nameOnly] is off: with [unified: 0], or with [nameOnly] on,
    [executeDiff] builds the same two invocations and behaves the same as
    without [unified]. *)
Theorem diff_unified_zero_or_name_only_is_ignored :
  forall (options : GitDiffOptions) (context : GitOperationContext RequestContext)
         (st : State World),
    d_unified options = Some 0%Z \/ d_nameOnly options = Some true ->
    diffArgs options = diffArgs (withoutUnified options)
    /\ executeDiff options context st
       = executeDiff (withoutUnified options) context st.
Proof.
  intros options context st Hignored.
  assert (Hargs : diffArgs options = diffArgs (withoutUnified options)).
  { unfold diffArgs, withoutUnified. cbn.
    destruct Hignored as [-> | ->]; cbn; [reflexivity |].
    destruct (d_unified options) as [u |]; [destruct (u =? 0)%Z |]; reflexivity. }
  split; [exact Hargs |].
  unfold executeDiff, diffCommand, statCommand. now rewrite Hargs.
Qed.

(** X19. [executeDiff] runs the tool twice, the diff body first. If the
    first run fails the diffstat is not run; if the diffstat fails the
    call fails too and the diff text already obtained is not returned.
    Either failure is thrown as the mapper's image of it. *)
Theorem diff_fails_when_either_run_fails :
  forall (options : GitDiffOptions) (context : GitOperationContext RequestContext)
         (st : State World),
    let cwd := workingDirectory context in
    let ctx := requestContext context in
    (forall e w1,
        execGit (buildGitCommand (diffCommand options)) cwd ctx (world st)
        = (Threw e, w1) ->
        executeDiff options context st
        = (Threw (mapGitError e "diff"),
           mkState w1 (log st ++ [entry (diffCommand options) cwd false])))
    /\ (forall d w1 e w2,
          execGit (buildGitCommand (diffCommand options)) cwd ctx (world st)
          = (Returned d, w1) ->
          execGit (buildGitCommand (statCommand options)) cwd ctx w1
          = (Threw e, w2) ->
          executeDiff options context st
          = (Threw (mapGitError e "diff"),
             mkState w2 (log st ++ [entry (diffCommand options) cwd true;
                                    entry (statCommand options) cwd false]))).
Proof.
  intros options context st cwd ctx. subst cwd ctx.
  split.
  - intros e w1 H1. unfold executeDiff, try_catch, bind.
    run_git H1. reflexivity.
  - intros d w1 e w2 H1 H2. unfold executeDiff, try_catch, bind.
    run_git H1. run_git H2. rewrite <- app_assoc. reflexivity.
Qed.

(** When both runs succeed, the result carries the standard output
    of the first run unchanged, the counts that [parseGitDiffStat] reads
    from the standard output of the second run, and [binary] says whether
    the diff text holds ["Binary files"]; nothing of the first run enters
    the counts and nothing of the second the text. *)
Lemma diff_result_sources :
  forall (options : GitDiffOptions) (context : GitOperationContext RequestContext)
         (st : State World) (d s : GitOutput) (w1 w2 : World),
    let cwd := workingDirectory context in
    let ctx := requestContext context in
    execGit (buildGitCommand (diffCommand options)) cwd ctx (world st)
    = (Returned d, w1) ->
    execGit (buildGitCommand (statCommand options)) cwd ctx w1 = (Returned s, w2) ->
    exists r,
      executeDiff options context st
      = (Returned r,
         mkState w2 (log st ++ [entry (diffCommand options) cwd true;
                                entry (statCommand options) cwd true]))
      /\ dr_diff r = stdout d
      /\ dr_binary r = Js.includes (stdout d) "Binary files"
      /\ dr_filesChanged r = Z.of_nat (List.length (files (parseGitDiffStat (stdout s))))
      /\ dr_insertions r = totalAdditions (parseGitDiffStat (stdout s))
      /\ dr_deletions r = totalDeletions (parseGitDiffStat (stdout s))
      /\ (0 <= dr_filesChanged r)%Z.
Proof.
  intros options context st d s w1 w2 cwd ctx H1 H2. subst cwd ctx.
  eexists. unfold executeDiff, try_catch, bind.
  run_git H1. run_git H2. rewrite <- app_assoc.
  split; [reflexivity |]. cbn. repeat split. lia.
Qed.

(** X20. With no path, an empty list of paths or a single path, the
    [git_diff] tool calls the provider once, in the target path, with the
    options of the input ([unified] being [contextLines], [path] the
    single path if there is one). It returns [success: true] with the
    provider's text and counts, and when the provider throws it throws
    the same value: the tool maps no error. *)
Theorem gitDiffLogic_delegates_to_provider :
  forall (provider : GitProvider) (input : DiffToolInput) (targetPath : string)
         (appContext : RequestContext) (st : State World) (path : option string),
    in_paths input = None /\ path = None
    \/ in_paths input = Some [] /\ path = None
    \/ (exists p, in_paths input = Some [p] /\ path = Some p) ->
    gitDiffLogic provider input targetPath appContext st
    = match provider_diff (diffOptionsOf input path)
              (toolContext targetPath appContext) st with
      | (Returned r, st') =>
          (Returned (mkDiffToolOutput true (dr_diff r) (dr_filesChanged r)
                       (dr_insertions r) (dr_deletions r)), st')
      | (Threw e, st') => (Threw e, st')
      end.
Proof.
  intros provider input targetPath appContext st path Hpaths.
  unfold gitDiffLogic, bind, diffOptionsOf, toolContext.
  destruct Hpaths as [[-> ->] | [[-> ->] | [p [-> ->]]]]; cbn;
    destruct (provider_diff _ _ st) as [[r | e] st']; reflexivity.
Qed.

(** X21. Through the CLI provider, a [git_diff] call with one non-empty
    path first runs [diff] in the target path with arguments that hold
    [--] directly followed by that path, after the refs; [contextLines: 0]
    adds no [--unified] argument. *)
Theorem gitDiffLogic_scopes_to_single_path :
  forall (input : DiffToolInput) (targetPath : string) (appContext : RequestContext)
         (st : State World) (p : string),
    in_paths input = Some [p] ->
    p <> "" ->
    exists front back ok rest,
      log (snd (gitDiffLogic cliProvider input targetPath appContext st))
      = (log st
         ++ entry (mkGitCommand "diff" (front ++ ["--"; p] ++ back)) targetPath ok
            :: rest)%list
      /\ (in_contextLines input = 0%Z \/ in_nameOnly input = true -> back = [])
      /\ (in_contextLines input <> 0%Z -> in_nameOnly input = false ->
          back = [("--unified=" ++ Js.toString (in_contextLines input))%string]).
Proof.
  intros input targetPath appContext st p Hpaths Hp.
  destruct input as [ipath target source paths staged untracked nameOnly stat lines].
  cbn in Hpaths |- *. subst paths.
  destruct p as [| c p]; [contradiction |].
  unfold gitDiffLogic, bind. cbn.
  unfold executeDiff, try_catch, bind, git, diffCommand, diffArgs. cbn.
  exists ((if staged then ["--cached"] else [])
          ++ (if nameOnly then ["--name-only"] else [])
          ++ (match source with
              | Some s => if Js.truthy s then [s] else []
              | None => []
              end)
          ++ (match target with
              | Some t => if Js.truthy t then [t] else []
              | None => []
              end))%list.
  exists (if negb (lines =? 0)%Z && negb nameOnly
          then [("--unified=" ++ Js.toString lines)%string]
          else []).
  destruct staged, nameOnly; destruct (lines =? 0)%Z eqn:Hlines; cbn;
    each_answer; do 2 eexists;
    (split; [rewrite <- ?app_assoc; cbn; rewrite <- ?app_assoc; reflexivity |]);
    (split;
     [ first [ reflexivity
             | intros [Hzero | Hname];
               [apply Z.eqb_eq in Hzero; congruence | discriminate Hname] ]
     | intros Hnonzero Hname;
       first [ reflexivity
             | discriminate Hname
             | apply Z.eqb_neq in Hnonzero; congruence ] ]).
Qed.

(* ------------------------------------------------------------------- *)
(** *** what all four operations share, and the response filters *)

(** X22. Every error that leaves one of the four operations has gone
    through the mapper under the name of the operation: what is thrown is
    [mapGitError] of some cause, never a raw rejection of [execGit] and
    never the bare validation error. *)
Theorem failures_pass_through_the_mapper :
  forall (context : GitOperationContext RequestContext) (st : State World) (e : Thrown),
    (forall options,
        fst (executeMergeBase options context st) = Threw e ->
        exists cause, e = mapGitError cause "merge-base")
    /\ (forall options,
          fst (executeCommit options context st) = Threw e ->
          exists cause, e = mapGitError cause "commit")
    /\ (forall options,
          fst (executeClone options context st) = Threw e ->
          exists cause, e = mapGitError cause "clone")
    /\ (forall options,
          fst (executeDiff options context st) = Threw e ->
          exists cause, e = mapGitError cause "diff").
Proof.
  intros context st e. repeat split; intros options.
  - mergeBase_cases options; intros Hthrown; try discriminate Hthrown;
      inversion Hthrown; eexists; reflexivity.
  - unfold executeCommit, try_catch, bind, git; cbn.
    destruct (shouldSign options); cbn;
      repeat first
        [ progress each_answer
        | match goal with
          | |- context [Js.truthy_flag (co_forceUnsignedOnFailure options)] =>
              destruct (Js.truthy_flag (co_forceUnsignedOnFailure options)); cbn
          | |- context [isNull ?e] => destruct (isNull e); cbn
          end ];
      intros Hthrown; try discriminate Hthrown;
      inversion Hthrown; eexists; reflexivity.
  - unfold executeClone, try_catch, bind, git; cbn. each_answer;
      intros Hthrown; try discriminate Hthrown;
      inversion Hthrown; eexists; reflexivity.
  - unfold executeDiff, try_catch, bind, git; cbn. each_answer;
      intros Hthrown; try discriminate Hthrown;
      inversion Hthrown; eexists; reflexivity.
Qed.

(** X23. At the [minimal] level the filtered [git_diff] response does not
    depend on the diff text and carries none, while success and the three
    counts are kept; at the other levels nothing is lost: the response
    determines the output. *)
Theorem diff_filter_hides_text_only_at_minimal :
  forall (r1 r2 : DiffToolOutput) (level : VerbosityLevel),
    (out_success r1 = out_success r2 ->
     out_filesChanged r1 = out_filesChanged r2 ->
     out_insertions r1 = out_insertions r2 ->
     out_deletions r1 = out_deletions r2 ->
     filterGitDiffOutput r1 Minimal = filterGitDiffOutput r2 Minimal)
    /\ pd_diff (filterGitDiffOutput r1 Minimal) = None
    /\ pd_success (filterGitDiffOutput r1 level) = Some (out_success r1)
    /\ pd_filesChanged (filterGitDiffOutput r1 level) = Some (out_filesChanged r1)
    /\ pd_insertions (filterGitDiffOutput r1 level) = Some (out_insertions r1)
    /\ pd_deletions (filterGitDiffOutput r1 level) = Some (out_deletions r1)
    /\ (level <> Minimal ->
        filterGitDiffOutput r1 level = filterGitDiffOutput r2 level -> r1 = r2).
Proof.
  intros [s1 d1 f1 i1 x1] [s2 d2 f2 i2 x2] level. cbn.
  split; [intros -> -> -> ->; reflexivity |].
  split; [reflexivity |].
  repeat split; try (destruct level; reflexivity).
  intros Hlevel Hsame. destruct level; [contradiction | |];
    cbn in Hsame; injection Hsame as -> -> -> -> ->; reflexivity.
Qed.

(** X24. At the [minimal] level the filtered [git_merge_base] response
    keeps [success] and the ancestry answer and nothing else: it does not
    depend on the hashes, the refs or the mode. At the other levels the
    response determines the output. *)
Theorem mergeBase_filter_keeps_the_ancestry_answer :
  forall (r1 r2 : MergeBaseToolOutput) (level : VerbosityLevel),
    pmb_isAncestor (filterGitMergeBaseOutput r1 level) = mbout_isAncestor r1
    /\ pmb_success (filterGitMergeBaseOutput r1 level) = Some (mbout_success r1)
    /\ (mbout_success r1 = mbout_success r2 ->
        mbout_isAncestor r1 = mbout_isAncestor r2 ->
        filterGitMergeBaseOutput r1 Minimal = filterGitMergeBaseOutput r2 Minimal)
    /\ (level <> Minimal ->
        filterGitMergeBaseOutput r1 level = filterGitMergeBaseOutput r2 level ->
        r1 = r2).
Proof.
  intros [s1 m1 a1 f1 o1] [s2 m2 a2 f2 o2] level. cbn.
  split; [destruct level; reflexivity |].
  split; [destruct level; reflexivity |].
  split; [intros -> ->; reflexivity |].
  intros Hlevel Hsame. destruct level; [contradiction | |];
    cbn in Hsame; injection Hsame as -> -> -> -> ->; reflexivity.
Qed.

End Provider.

Arguments git {World RequestContext} execGit buildGitCommand c cwd ctx _.
Arguments executeMergeBase {World RequestContext}
  execGit buildGitCommand mapGitError InvalidParams options context _.
Arguments executeCommit {World RequestContext}
  execGit buildGitCommand mapGitError shouldSignCommits
  GIT_FIELD_DELIMITER GIT_RECORD_DELIMITER options context _.
Arguments executeClone {World RequestContext}
  execGit buildGitCommand mapGitError processCwd options context _.
Arguments executeDiff {World RequestContext}
  execGit buildGitCommand mapGitError parseGitDiffStat options context _.
Arguments cliProvider {World RequestContext}
  execGit buildGitCommand mapGitError parseGitDiffStat shouldSignCommits
  GIT_FIELD_DELIMITER GIT_RECORD_DELIMITER InvalidParams processCwd.
Arguments gitDiffLogic {World RequestContext}
  tenantIdOf provider input targetPath appContext _.
Arguments gitMergeBaseLogic {World RequestContext}
  tenantIdOf provider input targetPath appContext _.
Arguments fresh {World} w.
Arguments toolContext {RequestContext} tenantIdOf targetPath appContext.

(* ===================================================================== *)
(** ** The runtime fragment on concrete inputs *)
(* ===================================================================== *)

Example resolve_abs : NodePath.resolve "/srv" "/work/proj" = "/work/proj".
Proof. reflexivity. Qed.
Example resolve_rel : NodePath.resolve "/srv" "a/../b//c/." = "/srv/b/c".
Proof. reflexivity. Qed.
Example resolve_up : NodePath.resolve "/srv/x" "../../../y/" = "/y".
Proof. reflexivity. Qed.
Example dirname_1 : NodePath.dirname "/work/proj" = "/work".
Proof. reflexivity. Qed.
Example dirname_2 : NodePath.dirname "/work" = "/".
Proof. reflexivity. Qed.
Example dirname_3 : NodePath.dirname "a//b" = "a/".
Proof. reflexivity. Qed.
Example dirname_4 : NodePath.dirname "//a" = "//".
Proof. reflexivity. Qed.
Example dirname_5 : NodePath.dirname "ab" = ".".
Proof. reflexivity. Qed.
Example basename_1 : NodePath.basename "/work/proj" = "proj".
Proof. reflexivity. Qed.
Example basename_2 : NodePath.basename "/" = "".
Proof. reflexivity. Qed.
Example split_1 : Js.split "a::b::" "::" = ["a"; "b"; ""].
Proof. reflexivity. Qed.
Example split_2 : Js.split "aaa" "aa" = [""; "a"].
Proof. reflexivity. Qed.
Example split_3 : Js.split "" "x" = [""].
Proof. reflexivity. Qed.
Example parse_1 : Js.parseInt10 " 170 x" = Js.Num 170.
Proof. reflexivity. Qed.
Example parse_2 : Js.parseInt10 "x" = Js.NaN.
Proof. reflexivity. Qed.
Example trim_1 : Js.trim "  a b
" = "a b".
Proof. reflexivity. Qed.
Example toString_1 : Js.toString 42 = "42".
Proof. reflexivity. Qed.

(* ===================================================================== *)
(** ** Concrete runs in the scripted environment *)
(* ===================================================================== *)

Abbreviation sampleMergeBase :=
  (executeMergeBase Sample.execGit Sample.buildGitCommand Sample.mapGitError
     Sample.InvalidParams).

Abbreviation sampleCommit :=
  (executeCommit Sample.execGit Sample.buildGitCommand Sample.mapGitError false
     Sample.GIT_FIELD_DELIMITER Sample.GIT_RECORD_DELIMITER).

Abbreviation sampleClone :=
  (executeClone Sample.execGit Sample.buildGitCommand Sample.mapGitError "/srv").

Abbreviation sampleProvider :=
  (cliProvider Sample.execGit Sample.buildGitCommand Sample.mapGitError
     Sample.parseGitDiffStat false
     Sample.GIT_FIELD_DELIMITER Sample.GIT_RECORD_DELIMITER
     Sample.InvalidParams "/srv").

Lemma mergeBase_validates_before_running_witness :
  exists message,
    sampleMergeBase (mkMergeBaseOptions ["HEAD"] (Some ModeIsAncestor))
      Sample.context (fresh [Sample.exits0 ""])
    = (Threw (newMcpError Sample.InvalidParams message), fresh [Sample.exits0 ""]).
Proof.
  destruct (mergeBase_validates_before_running
              Sample.World unit Sample.execGit Sample.buildGitCommand
              Sample.mapGitError Sample.InvalidParams
              (mkMergeBaseOptions ["HEAD"] (Some ModeIsAncestor))
              Sample.context (fresh [Sample.exits0 ""]))
    as [message [_ [_ Hpass]]].
  - right. split; [reflexivity | cbn; discriminate].
  - exists message. apply Hpass. intros e operation Hclass.
    unfold Sample.mapGitError. rewrite Hclass. reflexivity.
Defined.

Lemma mergeBase_not_ancestor_is_success_witness :
  sampleMergeBase (mkMergeBaseOptions ["feature"; "main"] (Some ModeIsAncestor))
    Sample.context (fresh [Sample.exits 1 ""])
  = (Returned (mkMergeBaseResult true MbNull (Some false) ["feature"; "main"]
                 ModeIsAncestor),
     mkState []
       [entry Sample.buildGitCommand
          (mergeBaseCommand ModeIsAncestor ["feature"; "main"]) "/repo" false])
  /\ sampleMergeBase (mkMergeBaseOptions ["feature"; "main"] (Some ModeIsAncestor))
       Sample.context (fresh [Sample.exits 128 "fatal: Not a valid object name"])
     = (Threw (Sample.mapGitError
                 (mkThrown PlainError (Some (CodeNumber 128))
                    "fatal: Not a valid object name") "merge-base"),
        mkState []
          [entry Sample.buildGitCommand
             (mergeBaseCommand ModeIsAncestor ["feature"; "main"]) "/repo" false]).
Proof.
  split.
  - exact (proj1 (mergeBase_not_ancestor_is_success
                    Sample.World unit Sample.execGit Sample.buildGitCommand
                    Sample.mapGitError Sample.InvalidParams
                    "feature" "main" Sample.context (fresh [Sample.exits 1 ""])
                    (mkThrown PlainError (Some (CodeNumber 1)) "") [] eq_refl)
                 (conj (or_introl eq_refl) eq_refl)).
  - refine (proj1 (proj2 (mergeBase_not_ancestor_is_success
                    Sample.World unit Sample.execGit Sample.buildGitCommand
                    Sample.mapGitError Sample.InvalidParams
                    "feature" "main" Sample.context
                    (fresh [Sample.exits 128 "fatal: Not a valid object name"])
                    (mkThrown PlainError (Some (CodeNumber 128))
                       "fatal: Not a valid object name") [] eq_refl))
                 128%Z _ (conj (or_introl eq_refl) eq_refl)).
    discriminate.
Defined.

Lemma commit_signed_failure_without_fallback_witness :
  sampleCommit (Sample.commitOptions (Some true) None) Sample.context
    (fresh [Sample.exits 128 "gpg failed to sign the data"; Sample.exits0 ""])
  = (Threw (Sample.mapGitError
              (mkThrown PlainError (Some (CodeNumber 128))
                 "gpg failed to sign the data") "commit"),
     mkState [Sample.exits0 ""]
       [entry Sample.buildGitCommand
          (signedCommand (Sample.commitOptions (Some true) None)) "/repo" false]).
Proof.
  exact (proj1 (commit_signed_failure_without_fallback
                  Sample.World unit Sample.execGit Sample.buildGitCommand
                  Sample.mapGitError false
                  Sample.GIT_FIELD_DELIMITER Sample.GIT_RECORD_DELIMITER
                  (Sample.commitOptions (Some true) None) Sample.context
                  [Sample.exits 128 "gpg failed to sign the data"; Sample.exits0 ""]
                  _ _ eq_refl (or_introl eq_refl) eq_refl)).
Defined.

Lemma commit_at_most_one_write_succeeds_witness :
  let run := sampleCommit (Sample.commitOptions (Some true) (Some true)) Sample.context
               (fresh [Sample.exits0 ""; Sample.exits0 "abc123"; Sample.exits0 Sample.payload]) in
  fst run = Returned (mkCommitResult true "abc123" "fix: typo" "Alice"
                        (Js.Num 1700000000) ["a.txt"; "b.txt"])
  /\ List.length (succeededWrites (log (snd run))) = 1%nat.
Proof.
  split; [reflexivity |].
  eapply (proj1 (proj2 (commit_at_most_one_write_succeeds
                          Sample.World unit Sample.execGit Sample.buildGitCommand
                          Sample.mapGitError false
                          Sample.GIT_FIELD_DELIMITER Sample.GIT_RECORD_DELIMITER
                          (Sample.commitOptions (Some true) (Some true)) Sample.context
                          _))).
  - reflexivity.
  - intros e w1 Hexec. discriminate Hexec.
Defined.


Lemma commit_falls_back_to_unsigned_witness :
  sampleCommit (Sample.commitOptions (Some true) (Some true)) Sample.context
    (fresh [Sample.exits 128 "gpg failed to sign the data"; Sample.exits0 "";
            Sample.exits0 ("abc123" ++ LF); Sample.exits0 Sample.payload])
  = (Returned (mkCommitResult true "abc123" "fix: typo" "Alice"
                 (Js.Num 1700000000) ["a.txt"; "b.txt"]),
     mkState []
       [entry Sample.buildGitCommand
          (signedCommand (Sample.commitOptions (Some true) (Some true))) "/repo" false;
        entry Sample.buildGitCommand
          (unsignedCommand (Sample.commitOptions (Some true) (Some true))) "/repo" true;
        entry Sample.buildGitCommand hashCommand "/repo" true;
        entry Sample.buildGitCommand
          (showCommand Sample.GIT_FIELD_DELIMITER Sample.GIT_RECORD_DELIMITER "abc123")
          "/repo" true]).
Proof.
  exact (proj1 (proj2 (proj2
           (commit_falls_back_to_unsigned
              Sample.World unit Sample.execGit Sample.buildGitCommand
              Sample.mapGitError false
              Sample.GIT_FIELD_DELIMITER Sample.GIT_RECORD_DELIMITER
              (Sample.commitOptions (Some true) (Some true)) Sample.context
              [Sample.exits 128 "gpg failed to sign the data"; Sample.exits0 "";
               Sample.exits0 ("abc123" ++ LF); Sample.exits0 Sample.payload]
              (mkThrown PlainError (Some (CodeNumber 128))
                 "gpg failed to sign the data")
              [Sample.exits0 ""; Sample.exits0 ("abc123" ++ LF);
               Sample.exits0 Sample.payload]
              eq_refl eq_refl eq_refl eq_refl))
           (mkGitOutput "" "")
           [Sample.exits0 ("abc123" ++ LF); Sample.exits0 Sample.payload]
           (mkGitOutput ("abc123" ++ LF) "")
           [Sample.exits0 Sample.payload]
           (mkGitOutput Sample.payload "") []
           eq_refl eq_refl eq_refl)).
Defined.

(** C2, counterexample. The signed attempt fails, the unsigned one
    succeeds, and [rev-parse HEAD] fails: the call throws although the
    unsigned commit went through. *)
Lemma commit_fallback_needs_the_readback :
  ~ fallbackSucceedsOnUnsignedAlone
      Sample.World unit Sample.execGit Sample.buildGitCommand Sample.mapGitError false
      Sample.GIT_FIELD_DELIMITER Sample.GIT_RECORD_DELIMITER
      (Sample.commitOptions (Some true) (Some true)) Sample.context
      [Sample.exits 128 "gpg failed to sign the data"; Sample.exits0 "";
       Sample.exits 128 "fatal: ambiguous argument 'HEAD'"].
Proof.
  intros Hclaim.
  destruct (Hclaim eq_refl eq_refl _ _ eq_refl) as [_ Hsuccess].
  destruct (Hsuccess _ _ eq_refl) as [r [Hreturned _]].
  discriminate Hreturned.
Qed.

Lemma commit_metadata_defaults_witness :
  authorName Sample.GIT_FIELD_DELIMITER Sample.GIT_RECORD_DELIMITER "Alice" = "Alice"
  /\ timestamp Sample.GIT_FIELD_DELIMITER Sample.GIT_RECORD_DELIMITER "Alice" = Js.Num 0
  /\ filesChanged Sample.GIT_RECORD_DELIMITER "Alice" = [].
Proof.
  exact (proj1 (proj2 (proj2
           (commit_metadata_defaults
              Sample.GIT_FIELD_DELIMITER Sample.GIT_RECORD_DELIMITER "Alice")))
           eq_refl eq_refl).
Defined.

Lemma clone_runs_in_parent_directory_witness :
  sampleClone (Sample.cloneOptions "/work/proj" None) Sample.context
    (fresh [Sample.exits0 ""])
  = (Returned (mkCloneResult true "/work/proj" "https://example.org/r.git" "main"),
     mkState []
       [entry Sample.buildGitCommand
          (mkGitCommand "clone" ["https://example.org/r.git"; "proj"])
          "/work" true])
  /\ NodePath.resolve "/srv" "/work/proj" = "/work/proj"
  /\ NodePath.dirname (NodePath.resolve "/srv" "/work/proj") = "/work"
  /\ NodePath.basename (NodePath.resolve "/srv" "/work/proj") = "proj".
Proof.
  split; [reflexivity |].
  exact (proj2 (proj2 (proj2
           (clone_runs_in_parent_directory
              Sample.World unit Sample.execGit Sample.buildGitCommand
              Sample.mapGitError "/srv"
              (Sample.cloneOptions "/work/proj" None) Sample.context
              [Sample.exits0 ""])))
           eq_refl).
Defined.

Lemma clone_reports_branch_witness :
  clr_branch (mkCloneResult true "/work/proj" "https://example.org/r.git" "dev")
  = "dev".
Proof.
  exact (clone_reports_branch
           Sample.World unit Sample.execGit Sample.buildGitCommand
           Sample.mapGitError "/srv"
           (Sample.cloneOptions "/work/proj" (Some "dev")) Sample.context
           (fresh [Sample.exits0 ""]) _ eq_refl).
Defined.

(** C9, counterexample. A branch given as the empty string is not echoed:
    the result says ["main"]. *)
Lemma clone_empty_branch_is_not_echoed :
  ~ branchEchoedWheneverPresent
      Sample.World unit Sample.execGit Sample.buildGitCommand Sample.mapGitError "/srv"
      (Sample.cloneOptions "/work/proj" (Some "")) Sample.context [Sample.exits0 ""].
Proof.
  intros Hclaim. specialize (Hclaim _ eq_refl). cbn in Hclaim. discriminate Hclaim.
Qed.

Lemma diff_rejects_multiple_paths_witness :
  gitDiffLogic Sample.tenantIdOf sampleProvider
    (Sample.diffInput (Some ["a.txt"; "b.txt"])) "/repo" tt
    (fresh [Sample.exits0 ""; Sample.exits0 ""])
  = (Threw (newError multiPathMessage), fresh [Sample.exits0 ""; Sample.exits0 ""]).
Proof.
  refine (proj1 (diff_rejects_multiple_paths
                   Sample.World unit Sample.InvalidParams Sample.tenantIdOf
                   sampleProvider (Sample.diffInput (Some ["a.txt"; "b.txt"]))
                   "/repo" tt (fresh [Sample.exits0 ""; Sample.exits0 ""])
                   ["a.txt"; "b.txt"] eq_refl _)).
  cbn. lia.
Defined.

(** C6, counterexample. With two paths the tool logic does throw, but what
    it throws is not a validation-kind error. *)
Lemma diff_multiple_paths_error_is_not_validation :
  ~ multiPathFailsWithValidationError
      Sample.World unit Sample.InvalidParams Sample.tenantIdOf sampleProvider
      (Sample.diffInput (Some ["a.txt"; "b.txt"])) "/repo" tt
      (fresh [Sample.exits0 ""; Sample.exits0 ""]).
Proof.
  intros Hclaim.
  destruct (Hclaim ["a.txt"; "b.txt"] eq_refl) as [e [Hrun [Hclass _]]].
  - cbn. lia.
  - cbn in Hrun. inversion Hrun; subst e. discriminate Hclass.
Qed.

Lemma diff_ignores_includeUntracked_and_stat_witness :
  executeDiff Sample.execGit Sample.buildGitCommand Sample.mapGitError
    Sample.parseGitDiffStat
    (mkDiffOptions None (Some "HEAD~1") None (Some false) (Some true) (Some true)
       (Some false) (Some 3%Z))
    Sample.context (fresh [Sample.exits0 "diff"; Sample.exits0 "stat"])
  = executeDiff Sample.execGit Sample.buildGitCommand Sample.mapGitError
      Sample.parseGitDiffStat
      (mkDiffOptions None (Some "HEAD~1") None (Some false) None (Some false)
         (Some false) (Some 3%Z))
      Sample.context (fresh [Sample.exits0 "diff"; Sample.exits0 "stat"]).
Proof.
  exact (proj2 (proj2
           (diff_ignores_includeUntracked_and_stat
              Sample.World unit Sample.execGit Sample.buildGitCommand
              Sample.mapGitError Sample.parseGitDiffStat
              _ _ Sample.context _
              eq_refl eq_refl eq_refl eq_refl eq_refl eq_refl))).
Defined.

(* ===================================================================== *)
(** ** Further concrete runs *)
(* ===================================================================== *)

Lemma mergeBase_blank_output_is_null_witness :
  fst (sampleMergeBase (mkMergeBaseOptions ["main"; "other"] (Some ModeAll))
         Sample.context (fresh [Sample.exits0 LF]))
  = Returned (mkMergeBaseResult true MbNull None ["main"; "other"] ModeAll).
Proof.
  exact (mergeBase_blank_output_is_null
           Sample.World unit Sample.execGit Sample.buildGitCommand
           Sample.mapGitError Sample.InvalidParams
           (mkMergeBaseOptions ["main"; "other"] (Some ModeAll))
           Sample.context (fresh [Sample.exits0 LF]) (mkGitOutput LF "") []
           ltac:(cbn; discriminate) ltac:(cbn; discriminate) eq_refl eq_refl).
Defined.

Lemma mergeBase_default_is_first_line_witness :
  fst (sampleMergeBase (mkMergeBaseOptions ["main"; "topic"] None)
         Sample.context (fresh [Sample.exits0 (" abc123 " ++ LF ++ "def456" ++ LF)]))
  = Returned (mkMergeBaseResult true (MbHash "abc123") None ["main"; "topic"]
                ModeDefault).
Proof.
  destruct (mergeBase_default_is_first_line
              Sample.World unit Sample.execGit Sample.buildGitCommand
              Sample.mapGitError Sample.InvalidParams
              (mkMergeBaseOptions ["main"; "topic"] None)
              Sample.context
              (fresh [Sample.exits0 (" abc123 " ++ LF ++ "def456" ++ LF)])
              (mkGitOutput (" abc123 " ++ LF ++ "def456" ++ LF) "") []
              eq_refl ltac:(cbn; discriminate) eq_refl ltac:(cbn; discriminate))
    as [line [rest [Hsplit [_ Hrun]]]].
  cbn in Hsplit. injection Hsplit as <- _. exact Hrun.
Defined.

Lemma mergeBase_all_lines_are_clean_witness :
  exists hashes,
    fst (sampleMergeBase (mkMergeBaseOptions ["a"; "b"; "c"] (Some ModeAll))
           Sample.context
           (fresh [Sample.exits0 ("abc123" ++ LF ++ LF ++ "  def456" ++ LF)]))
    = Returned (mkMergeBaseResult true (MbHashes hashes) None ["a"; "b"; "c"] ModeAll)
    /\ hashes <> []
    /\ (forall h, In h hashes -> h <> "" /\ Js.trim h = h).
Proof.
  exact (mergeBase_all_lines_are_clean
           Sample.World unit Sample.execGit Sample.buildGitCommand
           Sample.mapGitError Sample.InvalidParams
           (mkMergeBaseOptions ["a"; "b"; "c"] (Some ModeAll))
           Sample.context
           (fresh [Sample.exits0 ("abc123" ++ LF ++ LF ++ "  def456" ++ LF)])
           (mkGitOutput ("abc123" ++ LF ++ LF ++ "  def456" ++ LF) "") []
           eq_refl ltac:(cbn; discriminate) eq_refl ltac:(cbn; discriminate)).
Defined.

Lemma mergeBase_exit_1_fails_outside_ancestry_witness :
  fst (sampleMergeBase (mkMergeBaseOptions ["main"; "topic"] None)
         Sample.context (fresh [Sample.exits 1 ""]))
  = Threw (Sample.mapGitError (mkThrown PlainError (Some (CodeNumber 1)) "")
             "merge-base").
Proof.
  exact (mergeBase_exit_1_fails_outside_ancestry
           Sample.World unit Sample.execGit Sample.buildGitCommand
           Sample.mapGitError Sample.InvalidParams
           (mkMergeBaseOptions ["main"; "topic"] None)
           Sample.context (fresh [Sample.exits 1 ""])
           (mkThrown PlainError (Some (CodeNumber 1)) "") []
           ltac:(cbn; discriminate) ltac:(cbn; discriminate) eq_refl).
Defined.

Lemma mergeBase_ancestor_ignores_output_witness :
  fst (sampleMergeBase (mkMergeBaseOptions ["main"; "topic"] (Some ModeIsAncestor))
         Sample.context (fresh [Sample.exits0 "abc123"]))
  = Returned (mkMergeBaseResult true MbNull (Some true) ["main"; "topic"]
                ModeIsAncestor).
Proof.
  exact (mergeBase_ancestor_ignores_output
           Sample.World unit Sample.execGit Sample.buildGitCommand
           Sample.mapGitError Sample.InvalidParams
           "main" "topic" Sample.context (fresh [Sample.exits0 "abc123"])
           (mkGitOutput "abc123" "") [] eq_refl).
Defined.

Lemma mergeBase_result_echoes_request_witness :
  let options := mkMergeBaseOptions ["main"; "topic"] None in
  let r := mkMergeBaseResult true (MbHash "abc123") None ["main"; "topic"] ModeDefault in
  fst (sampleMergeBase options Sample.context (fresh [Sample.exits0 "abc123"]))
  = Returned r
  /\ mbr_success r = true
  /\ mbr_refs r = mb_refs options
  /\ mbr_mode r = effectiveMode options
  /\ mb_refs options <> []
  /\ (effectiveMode options = ModeIsAncestor ->
      mbr_mergeBase r = MbNull
      /\ mbr_isAncestor r <> None
      /\ List.length (mb_refs options) = 2%nat)
  /\ (effectiveMode options <> ModeIsAncestor -> mbr_isAncestor r = None).
Proof.
  split; [reflexivity |].
  exact (mergeBase_result_echoes_request
           Sample.World unit Sample.execGit Sample.buildGitCommand
           Sample.mapGitError Sample.InvalidParams
           (mkMergeBaseOptions ["main"; "topic"] None)
           Sample.context (fresh [Sample.exits0 "abc123"])
           (mkMergeBaseResult true (MbHash "abc123") None ["main"; "topic"]
              ModeDefault)
           eq_refl).
Defined.

Lemma gitMergeBaseLogic_echoes_mode_and_refs_witness :
  let input := mkMergeBaseToolInput "." ["main"; "topic"] ModeDefault in
  let out := mkMergeBaseToolOutput true (MbHash "abc123") None ["main"; "topic"]
               ModeDefault in
  fst (gitMergeBaseLogic Sample.tenantIdOf sampleProvider input "/repo" tt
         (fresh [Sample.exits0 "abc123"]))
  = Returned out
  /\ mbout_success out = true
  /\ mbout_mode out = mbin_mode input
  /\ mbout_refs out = mbin_refs input.
Proof.
  split; [reflexivity |].
  exact (gitMergeBaseLogic_echoes_mode_and_refs
           Sample.World unit Sample.execGit Sample.buildGitCommand
           Sample.mapGitError Sample.parseGitDiffStat false
           Sample.GIT_FIELD_DELIMITER Sample.GIT_RECORD_DELIMITER
           Sample.InvalidParams "/srv" Sample.tenantIdOf
           (mkMergeBaseToolInput "." ["main"; "topic"] ModeDefault)
           "/repo" tt (fresh [Sample.exits0 "abc123"])
           (mkMergeBaseToolOutput true (MbHash "abc123") None ["main"; "topic"]
              ModeDefault)
           eq_refl).
Defined.

Lemma commit_without_signing_witness :
  sampleCommit (Sample.commitOptions None None) Sample.context
    (fresh [Sample.exits 1 "nothing to commit"])
  = (Threw (Sample.mapGitError
              (mkThrown PlainError (Some (CodeNumber 1)) "nothing to commit") "commit"),
     mkState []
       [entry Sample.buildGitCommand
          (unsignedCommand (Sample.commitOptions None None)) "/repo" false]).
Proof.
  exact (proj2 (proj2
           (commit_without_signing
              Sample.World unit Sample.execGit Sample.buildGitCommand
              Sample.mapGitError false
              Sample.GIT_FIELD_DELIMITER Sample.GIT_RECORD_DELIMITER
              (Sample.commitOptions None None) Sample.context
              [Sample.exits 1 "nothing to commit"]
              (or_intror (conj eq_refl eq_refl))))
           _ _ eq_refl).
Defined.

Lemma commit_both_attempts_fail_witness :
  sampleCommit (Sample.commitOptions (Some true) (Some true)) Sample.context
    (fresh [Sample.exits 128 "gpg failed to sign the data";
            Sample.exits 1 "nothing to commit"])
  = (Threw (Sample.mapGitError
              (mkThrown PlainError (Some (CodeNumber 1)) "nothing to commit") "commit"),
     mkState []
       [entry Sample.buildGitCommand
          (signedCommand (Sample.commitOptions (Some true) (Some true))) "/repo" false;
        entry Sample.buildGitCommand
          (unsignedCommand (Sample.commitOptions (Some true) (Some true))) "/repo" false]).
Proof.
  exact (commit_both_attempts_fail
           Sample.World unit Sample.execGit Sample.buildGitCommand
           Sample.mapGitError false
           Sample.GIT_FIELD_DELIMITER Sample.GIT_RECORD_DELIMITER
           (Sample.commitOptions (Some true) (Some true)) Sample.context
           [Sample.exits 128 "gpg failed to sign the data";
            Sample.exits 1 "nothing to commit"]
           _ _ _ _ eq_refl eq_refl eq_refl eq_refl eq_refl).
Defined.

Lemma commit_fails_when_readback_fails_witness :
  sampleCommit (Sample.commitOptions (Some false) None) Sample.context
    (fresh [Sample.exits0 ""; Sample.exits 128 "fatal: ambiguous argument 'HEAD'"])
  = (Threw (Sample.mapGitError
              (mkThrown PlainError (Some (CodeNumber 128))
                 "fatal: ambiguous argument 'HEAD'") "commit"),
     mkState []
       [entry Sample.buildGitCommand
          (unsignedCommand (Sample.commitOptions (Some false) None)) "/repo" true;
        entry Sample.buildGitCommand hashCommand "/repo" false]).
Proof.
  exact (proj1
           (commit_fails_when_readback_fails
              Sample.World unit Sample.execGit Sample.buildGitCommand
              Sample.mapGitError false
              Sample.GIT_FIELD_DELIMITER Sample.GIT_RECORD_DELIMITER
              (Sample.commitOptions (Some false) None) Sample.context
              [Sample.exits0 ""; Sample.exits 128 "fatal: ambiguous argument 'HEAD'"]
              (mkGitOutput "" "")
              [Sample.exits 128 "fatal: ambiguous argument 'HEAD'"]
              eq_refl)
           _ _ eq_refl).
Defined.

Lemma commit_result_is_read_back_witness :
  let run := sampleCommit (Sample.commitOptions None None) Sample.context
               (fresh [Sample.exits0 ""; Sample.exits0 ("  abc123" ++ LF);
                       Sample.exits0 Sample.payload]) in
  let r := mkCommitResult true "abc123" "fix: typo" "Alice"
             (Js.Num 1700000000) ["a.txt"; "b.txt"] in
  fst run = Returned r
  /\ cr_success r = true
  /\ cr_message r = co_message (Sample.commitOptions None None)
  /\ Js.trim (cr_commitHash r) = cr_commitHash r
  /\ exists writes,
      log (snd run)
      = (writes ++ [entry Sample.buildGitCommand hashCommand "/repo" true;
                    entry Sample.buildGitCommand
                      (showCommand Sample.GIT_FIELD_DELIMITER
                         Sample.GIT_RECORD_DELIMITER (cr_commitHash r))
                      "/repo" true])%list.
Proof.
  split; [reflexivity |].
  exact (commit_result_is_read_back
           Sample.World unit Sample.execGit Sample.buildGitCommand
           Sample.mapGitError false
           Sample.GIT_FIELD_DELIMITER Sample.GIT_RECORD_DELIMITER
           (Sample.commitOptions None None) Sample.context
           [Sample.exits0 ""; Sample.exits0 ("  abc123" ++ LF);
            Sample.exits0 Sample.payload]
           (mkCommitResult true "abc123" "fix: typo" "Alice"
              (Js.Num 1700000000) ["a.txt"; "b.txt"])
           eq_refl).
Defined.

Lemma commit_metadata_roundtrip_witness :
  authorName Sample.GIT_FIELD_DELIMITER Sample.GIT_RECORD_DELIMITER Sample.payload
  = "Alice"
  /\ timestamp Sample.GIT_FIELD_DELIMITER Sample.GIT_RECORD_DELIMITER Sample.payload
     = Js.Num 1700000000
  /\ filesChanged Sample.GIT_RECORD_DELIMITER Sample.payload = ["a.txt"; "b.txt"].
Proof.
  exact (commit_metadata_roundtrip
           Sample.GIT_FIELD_DELIMITER Sample.GIT_RECORD_DELIMITER
           "Alice" "1700000000" (LF ++ "a.txt" ++ LF ++ "b.txt" ++ LF)
           eq_refl eq_refl eq_refl eq_refl).
Defined.

Lemma commit_files_are_single_nonblank_lines_witness :
  Js.trim "a.txt" <> "" /\ ~ In (ascii_of_nat 10) (list_ascii_of_string "a.txt").
Proof.
  exact (commit_files_are_single_nonblank_lines
           Sample.GIT_RECORD_DELIMITER Sample.payload "a.txt" (or_introl eq_refl)).
Defined.

Lemma diff_unified_zero_or_name_only_is_ignored_witness :
  diffArgs (mkDiffOptions None (Some "HEAD~1") None (Some true) None None
              (Some false) (Some 0%Z))
  = ["--cached"; "HEAD~1"].
Proof.
  exact (proj1
           (diff_unified_zero_or_name_only_is_ignored
              Sample.World unit Sample.execGit Sample.buildGitCommand
              Sample.mapGitError Sample.parseGitDiffStat
              (mkDiffOptions None (Some "HEAD~1") None (Some true) None None
                 (Some false) (Some 0%Z))
              Sample.context (fresh []) (or_introl eq_refl))).
Defined.

Lemma diff_result_sources_witness :
  exists r,
    executeDiff Sample.execGit Sample.buildGitCommand Sample.mapGitError
      Sample.parseGitDiffStat
      (mkDiffOptions None None None None None None None None)
      Sample.context
      (fresh [Sample.exits0 "Binary files a.png and b.png differ"; Sample.exits0 ""])
    = (Returned r,
       mkState []
         [entry Sample.buildGitCommand (mkGitCommand "diff" []) "/repo" true;
          entry Sample.buildGitCommand (mkGitCommand "diff" ["--stat"]) "/repo" true])
    /\ dr_diff r = "Binary files a.png and b.png differ"
    /\ dr_binary r = true
    /\ dr_filesChanged r = 0%Z
    /\ dr_insertions r = 0%Z
    /\ dr_deletions r = 0%Z
    /\ (0 <= dr_filesChanged r)%Z.
Proof.
  exact (diff_result_sources
           Sample.World unit Sample.execGit Sample.buildGitCommand
           Sample.mapGitError Sample.parseGitDiffStat
           (mkDiffOptions None None None None None None None None)
           Sample.context
           (fresh [Sample.exits0 "Binary files a.png and b.png differ"; Sample.exits0 ""])
           (mkGitOutput "Binary files a.png and b.png differ" "") (mkGitOutput "" "")
           [Sample.exits0 ""] [] eq_refl eq_refl).
Defined.

Lemma gitDiffLogic_delegates_to_provider_witness :
  gitDiffLogic Sample.tenantIdOf sampleProvider (Sample.diffInput (Some [])) "/repo" tt
    (fresh [Sample.exits 128 "fatal: not a git repository"])
  = (Threw (Sample.mapGitError
              (mkThrown PlainError (Some (CodeNumber 128)) "fatal: not a git repository")
              "diff"),
     mkState []
       [entry Sample.buildGitCommand (mkGitCommand "diff" ["--unified=3"])
          "/repo" false]).
Proof.
  exact (gitDiffLogic_delegates_to_provider
           Sample.World unit Sample.tenantIdOf sampleProvider
           (Sample.diffInput (Some [])) "/repo" tt
           (fresh [Sample.exits 128 "fatal: not a git repository"]) None
           (or_intror (or_introl (conj eq_refl eq_refl)))).
Defined.

Lemma gitDiffLogic_scopes_to_single_path_witness :
  exists front back ok rest,
    log (snd (gitDiffLogic Sample.tenantIdOf sampleProvider
                (Sample.diffInput (Some ["src/a.ts"])) "/repo" tt
                (fresh [Sample.exits0 ""; Sample.exits0 ""])))
    = ([] ++ entry Sample.buildGitCommand
               (mkGitCommand "diff" (front ++ ["--"; "src/a.ts"] ++ back)) "/repo" ok
             :: rest)%list
    /\ (3%Z = 0%Z \/ false = true -> back = [])
    /\ (3%Z <> 0%Z -> false = false -> back = ["--unified=3"]).
Proof.
  exact (gitDiffLogic_scopes_to_single_path
           Sample.World unit Sample.execGit Sample.buildGitCommand
           Sample.mapGitError Sample.parseGitDiffStat false
           Sample.GIT_FIELD_DELIMITER Sample.GIT_RECORD_DELIMITER
           Sample.InvalidParams "/srv" Sample.tenantIdOf
           (Sample.diffInput (Some ["src/a.ts"])) "/repo" tt
           (fresh [Sample.exits0 ""; Sample.exits0 ""]) "src/a.ts"
           eq_refl ltac:(discriminate)).
Defined.
